(** * rfpagent: the TestSprite API and browser test scripts

    A shallow embedding of the scripts under [testsprite_tests/] and the
    properties their scenarios satisfy.  The API scripts talk to the target
    system through [requests]; the browser scripts drive it through
    Playwright.  Both are modelled as programs in a small state-and-exception
    monad whose environment supplies what the outside world answers. *)

From Stdlib Require Import ZArith List String Ascii Bool Lia.
From Stdlib Require Import Floats.SpecFloat DecimalString.
Import ListNotations.
Open Scope string_scope.
Open Scope Z_scope.
Set Warnings "-register-all".

(** ** JSON values, as [response.json()] hands them to Python *)

(** [JObj] carries the items of the parsed [dict]; its keys are distinct.
    Strings are sequences of 8-bit characters. *)
Inductive json : Type :=
| JNull
| JBool (b : bool)
| JInt (n : Z)
| JFloat (f : spec_float)
| JStr (s : string)
| JList (l : list json)
| JObj (d : list (string * json)).

Fixpoint dict_lookup (k : string) (d : list (string * json)) : option json :=
  match d with
  | [] => None
  | (k', v) :: d' => if String.eqb k k' then Some v else dict_lookup k d'
  end.

(** [d[k] = v] *)
Fixpoint dict_set (k : string) (v : json) (d : list (string * json))
  : list (string * json) :=
  match d with
  | [] => [(k, v)]
  | (k', v') :: d' =>
      if String.eqb k k' then (k, v) :: d' else (k', v') :: dict_set k v d'
  end.

(** Python truth value of a JSON value: [bool(v)]. *)
Definition truthy (v : json) : bool :=
  match v with
  | JNull => false
  | JBool b => b
  | JInt n => negb (n =? 0)
  | JFloat (S754_zero _) => false
  | JFloat _ => true
  | JStr s => negb (String.eqb s "")
  | JList l => match l with [] => false | _ => true end
  | JObj d => match d with [] => false | _ => true end
  end.

(** [a or b] *)
Definition py_or (a b : json) : json := if truthy a then a else b.

Definition isinstance_str (v : json) : bool :=
  match v with JStr _ => true | _ => false end.
Definition isinstance_list (v : json) : bool :=
  match v with JList _ => true | _ => false end.
Definition isinstance_dict (v : json) : bool :=
  match v with JObj _ => true | _ => false end.

(** *** Equality [==] *)

Definition Z_of_bool (b : bool) : Z := if b then 1 else 0.

(** An [int] equals a [float] when they denote the same number. *)
Definition int_eq_float (n : Z) (f : spec_float) : bool :=
  match f with
  | S754_zero _ => n =? 0
  | S754_finite s m e =>
      let v := if s then Z.neg m else Z.pos m in
      if 0 <=? e then n =? v * 2 ^ e else n * 2 ^ (- e) =? v
  | _ => false
  end.

Fixpoint py_eq (a b : json) : bool :=
  match a, b with
  | JNull, JNull => true
  | JBool x, JBool y => Bool.eqb x y
  | JBool x, JInt y => Z_of_bool x =? y
  | JInt x, JBool y => x =? Z_of_bool y
  | JInt x, JInt y => x =? y
  | JBool x, JFloat y => int_eq_float (Z_of_bool x) y
  | JFloat x, JBool y => int_eq_float (Z_of_bool y) x
  | JInt x, JFloat y => int_eq_float x y
  | JFloat x, JInt y => int_eq_float y x
  | JFloat x, JFloat y => SFeqb x y
  | JStr x, JStr y => String.eqb x y
  | JList l, JList m =>
      (fix all2 (l m : list json) : bool :=
         match l, m with
         | [], [] => true
         | x :: l', y :: m' => py_eq x y && all2 l' m'
         | _, _ => false
         end) l m
  | JObj d, JObj e =>
      (List.length d =? List.length e)%nat &&
      (fix sub (d : list (string * json)) : bool :=
         match d with
         | [] => true
         | (k, v) :: d' =>
             match dict_lookup k e with
             | Some w => py_eq v w
             | None => false
             end && sub d'
         end) d
  | _, _ => false
  end.

(** *** Strings: [str.lower] and the substring test [needle in hay] *)

Definition lower_ascii (c : ascii) : ascii :=
  let n := nat_of_ascii c in
  if ((65 <=? n) && (n <=? 90))%nat then ascii_of_nat (n + 32) else c.

Fixpoint py_lower (s : string) : string :=
  match s with
  | EmptyString => EmptyString
  | String c s' => String (lower_ascii c) (py_lower s')
  end.

Fixpoint str_contains (needle hay : string) : bool :=
  if String.prefix needle hay then true
  else match hay with
       | EmptyString => false
       | String _ hay' => str_contains needle hay'
       end.


(** ** Exceptions *)

Inductive exn : Type :=
| AssertionError
| RequestException   (* connection refused, timeout, ... *)
| HTTPError          (* raised by [raise_for_status] *)
| JSONDecodeError    (* raised by [response.json()] *)
| TypeError
| KeyError
| IndexError
| AttributeError
| UnboundLocalError
| PlaywrightError.   (* [playwright.async_api.Error], timeouts included *)

(** [except requests.RequestException] *)
Definition is_RequestException (e : exn) : bool :=
  match e with
  | RequestException | HTTPError | JSONDecodeError => true
  | _ => false
  end.

(** [except ValueError] *)
Definition is_ValueError (e : exn) : bool :=
  match e with JSONDecodeError => true | _ => false end.

(** [except AssertionError] *)
Definition is_AssertionError (e : exn) : bool :=
  match e with AssertionError => true | _ => false end.

(** [except async_api.Error] *)
Definition is_PlaywrightError (e : exn) : bool :=
  match e with PlaywrightError => true | _ => false end.

(** [except Exception] *)
Definition is_Exception (e : exn) : bool := true.

(** ** What goes over the wire *)

Inductive method : Type := GET | POST | DELETE.

Record Request : Type := mkRequest {
  req_method : method;
  req_url : string;
  req_params : list (string * string);
  req_json : option json;
  req_headers : list (string * string);
  req_timeout : Z
}.

(** [json_body] is [None] when the body is not valid JSON. *)
Record Response : Type := mkResponse {
  status_code : Z;
  json_body : option json
}.

(** The target system either answers or cannot be reached. *)
Inductive Reply : Type :=
| Responded (r : Response)
| Unreachable.

(** ** The script monad *)

Inductive status : Type := Passed | Failed.

(** The outside world of a run: the reply to the n-th request sent and the
    n-th value drawn from [uuid.uuid4()]. *)
Record Env : Type := mkEnv {
  reply : nat -> Reply;
  uuid4 : nat -> string
}.

(** What a run has done so far: the requests sent (oldest first), how many
    uuids were drawn, the outcome of each [assert] executed, and the local
    variables of the test function that its [finally] block reads (latest
    binding first). *)
Record World : Type := mkWorld {
  sent : list Request;
  drawn : nat;
  outcomes : list status;
  locals : list (string * json)
}.

Definition start : World := mkWorld [] 0%nat [] [].

Inductive Result (A : Type) : Type :=
| Ok (a : A)
| Raise (e : exn).
Arguments Ok {A} a.
Arguments Raise {A} e.

(** A program reads its outside world [E], updates what it has done [W] and
    returns or raises. *)
Definition Prog (E W A : Type) : Type := E -> W -> Result A * W.

Definition ret {E W A} (a : A) : Prog E W A := fun _ w => (Ok a, w).

Definition bind {E W A B} (m : Prog E W A) (k : A -> Prog E W B) : Prog E W B :=
  fun env w =>
    match m env w with
    | (Ok a, w') => k a env w'
    | (Raise e, w') => (Raise e, w')
    end.

Definition raise {E W A} (e : exn) : Prog E W A := fun _ w => (Raise e, w).

Declare Scope script_scope.
Delimit Scope script_scope with script.
Notation "x <- m ;; k" := (bind m (fun x => k))
  (at level 61, m at next level, right associativity) : script_scope.
Notation "m ;; k" := (bind m (fun _ => k))
  (at level 61, right associativity) : script_scope.
Open Scope script_scope.

(** [try: m except <catches>: h] *)
Definition try_except {E W A} (m : Prog E W A) (catches : exn -> bool)
    (h : Prog E W A) : Prog E W A :=
  fun env w =>
    match m env w with
    | (Ok a, w') => (Ok a, w')
    | (Raise e, w') => if catches e then h env w' else (Raise e, w')
    end.

(** [try: m finally: f]: [f] always runs; an exception of [f] replaces the
    outcome of [m]. *)
Definition try_finally {E W A} (m : Prog E W A) (f : Prog E W unit) : Prog E W A :=
  fun env w =>
    match m env w with
    | (r, w') =>
        match f env w' with
        | (Ok _, w'') => (r, w'')
        | (Raise e, w'') => (Raise e, w'')
        end
    end.

(** [for x in l: body x] *)
Fixpoint for_each {E W A} (l : list A) (body : A -> Prog E W unit) : Prog E W unit :=
  match l with
  | [] => ret tt
  | x :: l' => body x ;; for_each l' body
  end.

(** The verdict of a run. *)
Definition overall {A W} (r : Result A * W) : status :=
  match fst r with Ok _ => Passed | Raise _ => Failed end.

(** The API scripts. *)
Definition M (A : Type) : Type := Prog Env World A.

(** [assert c] *)
Definition py_assert (c : bool) : M unit :=
  fun _ w =>
    if c then (Ok tt, mkWorld (sent w) (drawn w) (outcomes w ++ [Passed]) (locals w))
    else (Raise AssertionError,
          mkWorld (sent w) (drawn w) (outcomes w ++ [Failed]) (locals w)).

(** [assert False] *)
Definition assert_False {A} : M A :=
  fun _ w =>
    (Raise AssertionError,
     mkWorld (sent w) (drawn w) (outcomes w ++ [Failed]) (locals w)).

(** [str(uuid.uuid4())] *)
Definition uuid_str : M string :=
  fun E w =>
    (Ok (uuid4 E (drawn w)),
     mkWorld (sent w) (S (drawn w)) (outcomes w) (locals w)).

(** [x = v] for a local [x] of the test function. *)
Definition set_local (x : string) (v : json) : M unit :=
  fun _ w =>
    (Ok tt, mkWorld (sent w) (drawn w) (outcomes w) (dict_set x v (locals w))).

(** Reading the local [x]. *)
Definition get_local (x : string) : M json :=
  fun _ w =>
    match dict_lookup x (locals w) with
    | Some v => (Ok v, w)
    | None => (Raise UnboundLocalError, w)
    end.

(** ["x" in locals()] *)
Definition in_locals (x : string) : M bool :=
  fun _ w =>
    (Ok (match dict_lookup x (locals w) with Some _ => true | None => false end), w).

(** [requests.request(...)]: the request is sent, then the world's reply
    comes back or [RequestException] is raised. *)
Definition http (r : Request) : M Response :=
  fun E w =>
    let w' := mkWorld (sent w ++ [r]) (drawn w) (outcomes w) (locals w) in
    match reply E (List.length (sent w)) with
    | Responded resp => (Ok resp, w')
    | Unreachable => (Raise RequestException, w')
    end.

(** [response.raise_for_status()] *)
Definition raise_for_status (r : Response) : M unit :=
  if (400 <=? status_code r) && (status_code r <? 600)
  then raise HTTPError else ret tt.

(** [response.json()] *)
Definition resp_json (r : Response) : M json :=
  match json_body r with
  | Some j => ret j
  | None => raise JSONDecodeError
  end.

(** [v.get(k)]: only a dict has the method. *)
Definition py_get (v : json) (k : string) : M json :=
  match v with
  | JObj d => ret (match dict_lookup k d with Some x => x | None => JNull end)
  | _ => raise AttributeError
  end.

(** [k in v] for a string [k]. *)
Definition py_in (k : string) (v : json) : M bool :=
  match v with
  | JObj d => ret (match dict_lookup k d with Some _ => true | None => false end)
  | JList l => ret (existsb (fun x => py_eq x (JStr k)) l)
  | JStr s => ret (str_contains k s)
  | _ => raise TypeError
  end.

(** [v[k]] for a string [k]. *)
Definition py_getitem (v : json) (k : string) : M json :=
  match v with
  | JObj d => match dict_lookup k d with
              | Some x => ret x
              | None => raise KeyError
              end
  | _ => raise TypeError
  end.

(** [len(v)] *)
Definition py_len (v : json) : M Z :=
  match v with
  | JList l => ret (Z.of_nat (List.length l))
  | JObj d => ret (Z.of_nat (List.length d))
  | JStr s => ret (Z.of_nat (String.length s))
  | _ => raise TypeError
  end.

(** [v[0]] *)
Definition py_first (v : json) : M json :=
  match v with
  | JList (x :: _) => ret x
  | JList [] => raise IndexError
  | JStr (String c _) => ret (JStr (String c EmptyString))
  | JStr EmptyString => raise IndexError
  | JObj _ => raise KeyError
  | _ => raise TypeError
  end.

Fixpoint chars (s : string) : list json :=
  match s with
  | EmptyString => []
  | String c s' => JStr (String c EmptyString) :: chars s'
  end.

(** The values [for x in v] ranges over. *)
Definition py_iter (v : json) : M (list json) :=
  match v with
  | JList l => ret l
  | JObj d => ret (map (fun kv => JStr (fst kv)) d)
  | JStr s => ret (chars s)
  | _ => raise TypeError
  end.

Definition BASE_URL : string := "http://localhost:5173".
Definition TIMEOUT : Z := 30.

(** ** TC010_health_check_endpoint_returns_system_healthy.py *)

Module TC010.

Definition healthy_indicators : list string := ["healthy"; "ok"; "up"; "running"].

Definition test_health_check_endpoint_returns_system_healthy : M unit :=
  let url := BASE_URL ++ "/api/health" in
  let headers := [("Accept", "application/json")] in
  response <-
    try_except
      (response <- http (mkRequest GET url [] None headers TIMEOUT) ;;
       raise_for_status response ;;
       ret response)
      is_RequestException
      assert_False ;;
  py_assert (status_code response =? 200) ;;
  data <- try_except (resp_json response) is_ValueError assert_False ;;
  m1 <- py_get data "message" ;;
  message <-
    (if truthy m1 then ret m1
     else m2 <- py_get data "status" ;; ret (py_or m2 (JStr ""))) ;;
  py_assert (isinstance_str message) ;;
  match message with
  | JStr s =>
      py_assert (existsb (fun indicator => str_contains indicator (py_lower s))
                   healthy_indicators)
  | _ => raise AttributeError
  end.

End TC010.

(** ** TC001_get_all_rfps_with_pagination_and_filtering.py *)

Module TC001.

Definition params : list (string * string) :=
  [("status", "active"); ("portalId", "portal-123")].

Definition param (k : string) : json :=
  match find (fun kv => String.eqb k (fst kv)) params with
  | Some kv => JStr (snd kv)
  | None => JNull
  end.

(** The body of the loop over the returned entries. *)
Definition check_rfp (rfp : json) : M unit :=
  py_assert (isinstance_dict rfp) ;;
  has_status <- py_in "status" rfp ;;
  py_assert has_status ;;
  st <- py_getitem rfp "status" ;;
  py_assert (py_eq st (param "status")) ;;
  has_portal <- py_in "portalId" rfp ;;
  py_assert has_portal ;;
  pid <- py_getitem rfp "portalId" ;;
  py_assert (py_eq pid (param "portalId")).

Definition test_get_all_rfps_with_pagination_and_filtering : M unit :=
  response <-
    try_except
      (response <- http (mkRequest GET (BASE_URL ++ "/api/rfps") params None [] TIMEOUT) ;;
       raise_for_status response ;;
       ret response)
      is_RequestException
      assert_False ;;
  py_assert (status_code response =? 200) ;;
  data <- try_except (resp_json response) is_ValueError assert_False ;;
  py_assert (isinstance_list data) ;;
  n <- py_len data ;;
  py_assert (n <=? 20) ;;
  items <- py_iter data ;;
  for_each items check_rfp.

End TC001.

(** ** Formatting a JSON value into a URL *)

(** [str(v)], the text an f-string puts for [{v}].  [py_repr] is Python's
    [repr] of floats, lists and dicts, which the scripts only ever paste
    into a URL. *)
Definition py_str (py_repr : json -> string) (v : json) : string :=
  match v with
  | JStr s => s
  | JNull => "None"
  | JBool true => "True"
  | JBool false => "False"
  | JInt n => DecimalString.NilZero.string_of_int (Z.to_int n)
  | _ => py_repr v
  end.

(** ** TC003_get_specific_rfp_by_id.py *)

Module TC003.
Section WithRepr.
Variable py_repr : json -> string.

Definition HEADERS : list (string * string) := [("Content-Type", "application/json")].

Definition create_rfp : M json :=
  u1 <- uuid_str ;;
  u2 <- uuid_str ;;
  let rfp_data := JObj [("rfpId", JStr u1); ("title", JStr ("Test RFP " ++ u2))] in
  response <- http (mkRequest POST (BASE_URL ++ "/api/rfps") [] (Some rfp_data) HEADERS TIMEOUT) ;;
  raise_for_status response ;;
  py_assert (status_code response =? 201) ;;
  created <- resp_json response ;;
  has_id <- py_in "id" created ;;
  py_assert has_id ;;
  py_getitem created "id".

Definition delete_rfp (rfp_id : json) : M unit := ret tt.

(** The three steps of the scenario, in the order the script runs them. *)
Definition step_get_by_id : M unit :=
  rfp_id <- get_local "rfp_id" ;;
  get_response <-
    http (mkRequest GET (BASE_URL ++ "/api/rfps/" ++ py_str py_repr rfp_id) [] None HEADERS TIMEOUT) ;;
  py_assert (status_code get_response =? 200) ;;
  rfp_details <- resp_json get_response ;;
  py_assert (isinstance_dict rfp_details) ;;
  got <- py_get rfp_details "id" ;;
  rfp_id <- get_local "rfp_id" ;;
  py_assert (py_eq got rfp_id).

Definition step_not_found : M unit :=
  u <- uuid_str ;;
  let non_existent_id := "nonexistent-" ++ u in
  not_found_response <-
    http (mkRequest GET (BASE_URL ++ "/api/rfps/" ++ non_existent_id) [] None HEADERS TIMEOUT) ;;
  py_assert (status_code not_found_response =? 404).

Definition test_get_specific_rfp_by_id : M unit :=
  set_local "rfp_id" JNull ;;
  try_finally
    (v <- create_rfp ;;
     set_local "rfp_id" v ;;
     step_get_by_id ;;
     step_not_found)
    (rfp_id <- get_local "rfp_id" ;;
     if truthy rfp_id then delete_rfp rfp_id else ret tt).

End WithRepr.
End TC003.

(** ** TC004_get_documents_for_specific_rfp.py *)

Module TC004.
Section WithRepr.
Variable py_repr : json -> string.

Definition headers : list (string * string) := [("Content-Type", "application/json")].

Definition rfp_create_payload : json :=
  JObj [("title", JStr "Test RFP for Document Retrieval");
        ("description", JStr "RFP created for testing the documents retrieval endpoint.");
        ("status", JStr "open");
        ("portalId", JStr "test-portal-001")].

(** The body of the [try]. *)
Definition main : M unit :=
  create_response <-
    http (mkRequest POST (BASE_URL ++ "/api/rfps") [] (Some rfp_create_payload) headers TIMEOUT) ;;
  py_assert (status_code create_response =? 201) ;;
  rfp_data <- resp_json create_response ;;
  has_id <- py_in "id" rfp_data ;;
  py_assert has_id ;;
  v <- py_getitem rfp_data "id" ;;
  set_local "rfp_id" v ;;
  rfp_id <- get_local "rfp_id" ;;
  get_docs_response <-
    http (mkRequest GET (BASE_URL ++ "/api/rfps/" ++ py_str py_repr rfp_id ++ "/documents")
            [] None headers TIMEOUT) ;;
  py_assert (status_code get_docs_response =? 200) ;;
  docs_data <- resp_json get_docs_response ;;
  py_assert (isinstance_list docs_data).

(** The body of the [finally]. *)
Definition cleanup : M unit :=
  rfp_id <- get_local "rfp_id" ;;
  if truthy rfp_id then
    try_except
      (http (mkRequest DELETE (BASE_URL ++ "/api/rfps/" ++ py_str py_repr rfp_id)
               [] None headers TIMEOUT) ;;
       ret tt)
      is_Exception
      (ret tt)
  else ret tt.

(** [rfp_id = None] *)
Definition prologue : M unit := set_local "rfp_id" JNull.

Definition test_get_documents_for_specific_rfp : M unit :=
  prologue ;;
  try_finally main cleanup.

End WithRepr.
End TC004.

(** ** TC006_enhanced_ai_powered_proposal_generation.py *)

Module TC006.
Section WithRepr.
Variable py_repr : json -> string.

Definition rfp_payload : json :=
  JObj [("title", JStr "Test RFP for Proposal Generation");
        ("description", JStr "RFP created for testing enhanced proposal generation.");
        ("status", JStr "open");
        ("portalId", JStr "test-portal-1")].

Definition headers : list (string * string) := [("Content-Type", "application/json")].

Definition new_profile_payload : json :=
  JObj [("name", JStr "Test Company Profile");
        ("description", JStr "Profile created for testing enhanced proposal generation.")].

(** [len(profiles) > 0], evaluated only once [profiles] is known to be a
    list. *)
Definition nonempty_list (v : json) : bool :=
  match v with JList l => 0 <? Z.of_nat (List.length l) | _ => false end.

(** The success test the script applies to the status of
    [POST /api/proposals/enhanced/generate]. *)
Definition expected_status (code : Z) : bool := code =? 200.

(** Step 1: create a new RFP to use its id. *)
Definition step1_create_rfp : M unit :=
  rfp_response <-
    http (mkRequest POST (BASE_URL ++ "/api/rfps") [] (Some rfp_payload) headers TIMEOUT) ;;
  py_assert (status_code rfp_response =? 201) ;;
  rfp_data <- resp_json rfp_response ;;
  v <- py_get rfp_data "id" ;;
  set_local "rfp_id" v ;;
  rfp_id <- get_local "rfp_id" ;;
  py_assert (truthy rfp_id).

(** Step 2: get or create a company profile. *)
Definition step2_company_profile : M unit :=
  company_profiles_response <-
    http (mkRequest GET (BASE_URL ++ "/api/company") [] None [] TIMEOUT) ;;
  py_assert (status_code company_profiles_response =? 200) ;;
  profiles <- resp_json company_profiles_response ;;
  if truthy profiles && isinstance_list profiles && nonempty_list profiles then
    p0 <- py_first profiles ;;
    v <- py_get p0 "id" ;;
    set_local "company_profile_id" v
  else
    set_local "new_profile_payload" new_profile_payload ;;
    payload <- get_local "new_profile_payload" ;;
    create_profile_response <-
      http (mkRequest POST (BASE_URL ++ "/api/company") [] (Some payload) headers TIMEOUT) ;;
    py_assert (status_code create_profile_response =? 201) ;;
    company_profile <- resp_json create_profile_response ;;
    v <- py_get company_profile "id" ;;
    set_local "company_profile_id" v ;;
    company_profile_id <- get_local "company_profile_id" ;;
    py_assert (truthy company_profile_id).

(** Step 3: call the enhanced proposal generation endpoint. *)
Definition step3_generate_proposal : M unit :=
  rfp_id <- get_local "rfp_id" ;;
  company_profile_id <- get_local "company_profile_id" ;;
  let proposal_payload :=
    if truthy company_profile_id
    then JObj [("rfpId", rfp_id); ("companyProfileId", company_profile_id)]
    else JObj [("rfpId", rfp_id)] in
  proposal_response <-
    http (mkRequest POST (BASE_URL ++ "/api/proposals/enhanced/generate") []
            (Some proposal_payload) headers TIMEOUT) ;;
  py_assert (expected_status (status_code proposal_response)) ;;
  proposal_data <- resp_json proposal_response ;;
  s1 <- py_get proposal_data "sessionId" ;;
  session_id <- (if truthy s1 then ret s1 else py_get proposal_data "session_id") ;;
  py_assert (truthy session_id && isinstance_str session_id &&
             match session_id with
             | JStr s => 0 <? Z.of_nat (String.length s)
             | _ => false
             end).

(** The body of the [try]. *)
Definition main : M unit :=
  step1_create_rfp ;; step2_company_profile ;; step3_generate_proposal.

Definition cleanup_rfp : M unit :=
  rfp_id <- get_local "rfp_id" ;;
  if truthy rfp_id then
    try_except
      (http (mkRequest DELETE (BASE_URL ++ "/api/rfps/" ++ py_str py_repr rfp_id)
               [] None [] TIMEOUT) ;;
       ret tt)
      is_Exception
      (ret tt)
  else ret tt.

Definition cleanup_company : M unit :=
  company_profile_id <- get_local "company_profile_id" ;;
  created_here <- in_locals "new_profile_payload" ;;
  if truthy company_profile_id && created_here then
    try_except
      (http (mkRequest DELETE (BASE_URL ++ "/api/company/" ++ py_str py_repr company_profile_id)
               [] None [] TIMEOUT) ;;
       ret tt)
      is_Exception
      (ret tt)
  else ret tt.

(** The body of the [finally]. *)
Definition cleanup : M unit := cleanup_rfp ;; cleanup_company.

(** [rfp_id = None] and [company_profile_id = None] *)
Definition prologue : M unit :=
  set_local "rfp_id" JNull ;;
  set_local "company_profile_id" JNull.

Definition test_enhanced_ai_powered_proposal_generation : M unit :=
  prologue ;;
  try_finally main cleanup.

End WithRepr.
End TC006.

(** ** The browser scripts *)

Module Browser.

(** The three things a script acquires: the Playwright driver ([pw]), the
    Chromium process ([browser]) and the browser context ([context]). *)
Inductive resource : Type := Playwright | Chromium | Context.

(** What a run does to the session, in order. *)
Inductive event : Type :=
| Acquire (r : resource)
| Interact                (* an awaited page operation was started *)
| Release (r : resource).

(** The outside world of a run: what the n-th awaited operation of the
    [try] body does ([None]: it completes; [Some e]: it raises [e]) and how
    many frames the page has. *)
Record Oracle : Type := mkOracle {
  awaited : nat -> option exn;
  frames : nat
}.

(** The script's three variables ([true]: bound to a live object, [false]:
    still [None]), the trace of the session and the number of operations
    awaited so far. *)
Record Session : Type := mkSession {
  pw : bool;
  browser : bool;
  context : bool;
  events : list event;
  awaits : nat
}.

Definition fresh : Session := mkSession false false false [] 0%nat.

Definition B (A : Type) : Type := Prog Oracle Session A.

(** [x = await <acquire r>]: the variable is bound only if the call
    returns. *)
Definition acquire (r : resource) : B unit :=
  fun O s =>
    match awaited O (awaits s) with
    | Some e => (Raise e, mkSession (pw s) (browser s) (context s) (events s) (S (awaits s)))
    | None =>
        (Ok tt,
         mkSession (match r with Playwright => true | _ => pw s end)
                   (match r with Chromium => true | _ => browser s end)
                   (match r with Context => true | _ => context s end)
                   (events s ++ [Acquire r]) (S (awaits s)))
    end.

(** [await <page operation>] *)
Definition await : B unit :=
  fun O s =>
    let s' := mkSession (pw s) (browser s) (context s)
                (events s ++ [Interact]) (S (awaits s)) in
    match awaited O (awaits s) with
    | Some e => (Raise e, s')
    | None => (Ok tt, s')
    end.

(** [await context.close()], [await browser.close()], [await pw.stop()].
    Playwright's closing calls are taken to complete: they swallow the error
    of a target that is already gone, and the scripts leave them unguarded. *)
Definition close (r : resource) : B unit :=
  fun _ s =>
    (Ok tt, mkSession (pw s) (browser s) (context s) (events s ++ [Release r]) (awaits s)).

Definition bound (r : resource) : B bool :=
  fun _ s =>
    (Ok (match r with Playwright => pw s | Chromium => browser s | Context => context s end), s).

Definition page_frames : B (list nat) := fun O s => (Ok (seq 0 (frames O)), s).

(** The statements of a script between the start-up and the [finally]. *)
Inductive action : Type :=
| LastPage                                   (* frame = context.pages[-1] *)
| Goto (url : string) (timeout : Z)          (* await page.goto(url, timeout) *)
| Sleep (seconds : Z)                        (* await asyncio.sleep(seconds) *)
| Click (locator : string) (wait timeout : Z)
    (* await page.wait_for_timeout(wait); await elem.click(timeout) *)
| Fill (locator : string) (wait : Z) (text : string)
    (* await page.wait_for_timeout(wait); await elem.fill(text) *)
| WheelPage   (* await page.mouse.wheel(0, await page.evaluate(innerHeight)) *)
| WheelBy (dy : Z)                           (* await page.mouse.wheel(0, dy) *)
| ExpectVisible (locator : string) (timeout : Z)
    (* await expect(...).to_be_visible(timeout) *)
| ExpectVisibleOr (locator : string) (timeout : Z) (message : string).
    (* try: await expect(...).to_be_visible(timeout)
       except AssertionError: raise AssertionError(message) *)

Definition perform (a : action) : B unit :=
  match a with
  | LastPage => ret tt
  | Goto _ _ => await
  | Sleep _ => ret tt
  | Click _ _ _ => await ;; await
  | Fill _ _ _ => await ;; await
  | WheelPage => await ;; await
  | WheelBy _ => await
  | ExpectVisible _ _ => await
  | ExpectVisibleOr _ _ _ => try_except await is_AssertionError (raise AssertionError)
  end.

(** Opening the page, once the session is there. *)
Definition open_page : B unit :=
  await ;;                  (* page = await context.new_page() *)
  await ;;                  (* await page.goto(..., wait_until=commit) *)
  try_except await is_PlaywrightError (ret tt) ;;
  fs <- page_frames ;;
  for_each fs (fun _ => try_except await is_PlaywrightError (ret tt)).

(** The start-up every script shares, up to the first interaction. *)
Definition start_up : B unit :=
  acquire Playwright ;;     (* pw = await async_api.async_playwright().start() *)
  acquire Chromium ;;       (* browser = await pw.chromium.launch(...) *)
  acquire Context ;;        (* context = await browser.new_context() *)
  open_page.

(** The [finally] block every script shares. *)
Definition tear_down : B unit :=
  c <- bound Context ;;
  (if c then close Context else ret tt) ;;
  b <- bound Chromium ;;
  (if b then close Chromium else ret tt) ;;
  p <- bound Playwright ;;
  (if p then close Playwright else ret tt).

(** [run_test] of a script whose interactions are [steps]. *)
Definition run_steps (steps : list action) : B unit :=
  try_finally (start_up ;; for_each steps perform) tear_down.


(** *** TC002_Manual_RFP_Creation_from_URL.py *)

Module TC002_Manual_RFP_Creation_from_URL.

Definition steps : list action :=
  [LastPage;
   Click "xpath=html/body/div/div[3]/div[2]/main/div/div[3]/div[2]/div/div/div/div[2]/button[2]" 3000 5000;
   LastPage;
   Fill "xpath=html/body/div[3]/form/div/div/input" 3000 "https://www.beaconbid.com/solicitations/city-of-houston/a03e5701-7cba-41b8-b889-daea331fb556/multi-year-public-facing-regional-websites";
   LastPage;
   Fill "xpath=html/body/div[3]/form/div/div[2]/textarea" 3000 "Multi-year public-facing regional websites for City of Houston";
   LastPage;
   Click "xpath=html/body/div[3]/button" 3000 5000;
   LastPage;
   Click "xpath=html/body/div/div[3]/div[2]/main/div/div[3]/div[2]/div/div/div/div[2]/button[2]" 3000 5000;
   LastPage;
   Click "xpath=html/body/div[3]/form/div[2]/button[2]" 3000 5000;
   LastPage;
   Click "xpath=html/body/div/div[3]/div[2]/main/div/div[3]/div[2]/div/div/div/div[2]/button[2]" 3000 5000;
   LastPage;
   Fill "xpath=html/body/div[3]/form/div/div/input" 3000 "htp:/invalid-url";
   LastPage;
   Click "xpath=html/body/div[3]/button" 3000 5000;
   LastPage;
   Click "xpath=html/body/div/div[3]/div[2]/main/div/div[3]/div[2]/div/div/div/div[2]/button[2]" 3000 5000;
   LastPage;
   Click "xpath=html/body/div[3]/form/div[2]/button[2]" 3000 5000;
   LastPage;
   ExpectVisible "text=Single Family Home Development at Stella Link" 30000;
   ExpectVisible "text=City of Houston, Texas" 30000;
   ExpectVisible "text=Pending Review" 30000;
   ExpectVisible "text=No deadline set" 30000;
   ExpectVisible "text=Not set" 30000;
   ExpectVisible "text=90% complete" 30000;
   ExpectVisible "text=Monitor and manage your automated RFP workflow in real-time" 30000;
   ExpectVisible "text=RFP Dashboard" 30000;
   Sleep 5].

Definition run_test : B unit := run_steps steps.

End TC002_Manual_RFP_Creation_from_URL.

(** *** TC003_Proposal_Generation_Successful_Enhanced_AI_Proposal_Generation.py *)

Module TC003_Proposal_Generation_Successful_Enhanced_AI_Proposal_Generation.

Definition steps : list action :=
  [Goto "http://localhost:5001/api/proposals/enhanced/generate" 10000;
   Sleep 3;
   Goto "http://localhost:5173" 10000;
   Sleep 3;
   LastPage;
   Click "xpath=html/body/div/div[3]/div/nav/a[10]" 3000 5000;
   LastPage;
   Click "xpath=html/body/div/div[3]/div[2]/main/div/div[2]/div[2]/div/div/div/div/div[2]/button[2]" 3000 5000;
   WheelPage;
   LastPage;
   Fill "xpath=html/body/div[3]/form/div/div/input" 3000 "IBYTE";
   LastPage;
   Fill "xpath=html/body/div[3]/form/div[2]/div[2]/input" 3000 "https://example.com";
   LastPage;
   Click "xpath=html/body/div[3]/form/div[5]/button" 3000 5000;
   Goto "http://localhost:5001/api/proposals/enhanced/generate" 10000;
   Sleep 3;
   Goto "http://localhost:5173" 10000;
   Sleep 3;
   Goto "http://localhost:5001/api/proposals/enhanced/generate" 10000;
   Sleep 3;
   Goto "http://localhost:5173" 10000;
   Sleep 3;
   LastPage;
   Click "xpath=html/body/div/div[3]/div/nav/a[7]" 3000 5000;
   LastPage;
   Click "xpath=html/body/div/div[3]/div[2]/main/div/div[2]/div/div[2]/div/div" 3000 5000;
   LastPage;
   Click "xpath=html/body/div/div[3]/div[2]/main/div/div[2]/div[2]/div/div/div[2]/button" 3000 5000;
   LastPage;
   Click "xpath=html/body/div/div[3]/div/nav/a[10]" 3000 5000;
   LastPage;
   Click "xpath=html/body/div/div[3]/div[2]/main/div/div[2]/div[2]/div/div/div/div/div[2]/button[2]" 3000 5000;
   LastPage;
   Click "xpath=html/body/div[3]/button" 3000 5000;
   LastPage;
   Click "xpath=html/body/div/div[3]/div[2]/main/div/div[2]/div[2]/div/div/div/div/div[2]/button[2]" 3000 5000;
   LastPage;
   Fill "xpath=html/body/div[3]/form/div/div/input" 3000 "IBYTE";
   LastPage;
   Fill "xpath=html/body/div[3]/form/div[2]/div[2]/input" 3000 "https://example.com";
   LastPage;
   Click "xpath=html/body/div[3]/form/div[5]/button" 3000 5000;
   LastPage;
   Click "xpath=html/body/div/div[3]/div/nav/a[7]" 3000 5000;
   LastPage;
   Click "xpath=html/body/div/div[3]/div[2]/main/div/div[2]/div/div[2]/div/div" 3000 5000;
   LastPage;
   Click "xpath=html/body/div/div[3]/div[2]/main/div/div[2]/div[2]/div/div/div[2]/button" 3000 5000;
   LastPage;
   Click "xpath=html/body/div/div[3]/div/nav/a[10]" 3000 5000;
   LastPage;
   Click "xpath=html/body/div/div[3]/div[2]/main/div/div[2]/div[2]/div/div/div/div/div[2]/button[2]" 3000 5000;
   LastPage;
   Click "xpath=html/body/div[3]/form/div[5]/button" 3000 5000;
   LastPage;
   Click "xpath=html/body/div/div[3]/div[2]/main/div/div[2]/div[2]/div/div/div/div/div[2]/button[2]" 3000 5000;
   LastPage;
   Fill "xpath=html/body/div[3]/form/div/div/input" 3000 "IBYTE";
   LastPage;
   Fill "xpath=html/body/div[3]/form/div[2]/div[2]/input" 3000 "https://example.com";
   LastPage;
   Click "xpath=html/body/div[3]/form/div[5]/button" 3000 5000;
   LastPage;
   Click "xpath=html/body/div/div[3]/div/nav/a[5]" 3000 5000;
   LastPage;
   Click "xpath=html/body/div/div[3]/div/nav/a[10]" 3000 5000;
   LastPage;
   Click "xpath=html/body/div/div[3]/div[2]/main/div/div[2]/div[2]/div/div/div/div/div[2]/button[2]" 3000 5000;
   LastPage;
   Click "xpath=html/body/div[3]/form/div[5]/button" 3000 5000;
   LastPage;
   Click "xpath=html/body/div/div[3]/div[2]/main/div/div[2]/div[2]/div/div/div/div/div[2]/button[2]" 3000 5000;
   LastPage;
   Click "xpath=html/body/div[3]/form/div[5]/button" 3000 5000;
   LastPage;
   Click "xpath=html/body/div/div[3]/div[2]/main/div/div[2]/div[2]/div/div/div/div/div[2]/button[2]" 3000 5000;
   LastPage;
   Click "xpath=html/body/div[3]/form/div[5]/button" 3000 5000;
   LastPage;
   Click "xpath=html/body/div/div[3]/div[2]/main/div/div[2]/div[2]/div/div/div/div/div[2]/button[2]" 3000 5000;
   LastPage;
   Click "xpath=html/body/div[3]/form/div[5]/button" 3000 5000;
   LastPage;
   Click "xpath=html/body/div/div[3]/div[2]/main/div/div[2]/div[2]/div/div/div/div/div[2]/button[2]" 3000 5000;
   LastPage;
   Click "xpath=html/body/div[3]/form/div[5]/button" 3000 5000;
   LastPage;
   Click "xpath=html/body/div/div[3]/div/nav/a[10]" 3000 5000;
   LastPage;
   ExpectVisibleOr "text=Proposal generation successful with quality threshold met" 1000
     "Test failed: Enhanced AI proposal generation for valid RFP ID did not start as expected. Response status code was not 202 or real-time SSE updates with proposal sections and quality scores meeting threshold were not received.";
   Sleep 5].

Definition run_test : B unit := run_steps steps.

End TC003_Proposal_Generation_Successful_Enhanced_AI_Proposal_Generation.

(** *** TC005_Submission_Pipeline_Start_submission_workflow_with_valid_credentials_and_browser_options.py *)

Module TC005_Submission_Pipeline_Start_submission_workflow_with_valid_credentials_and_browser_options.

Definition steps : list action :=
  [LastPage;
   Click "xpath=html/body/div/div[3]/div[2]/main/div/div[3]/div[2]/div/div/div/div[2]/button[2]" 3000 5000;
   LastPage;
   Fill "xpath=html/body/div[3]/form/div/div/input" 3000 "https://www.beaconbid.com/solicitations/city-of-houston/a03e5701-7cba-41b8-b889-daea331fb556/multi-year-public-facing-regional-websites";
   LastPage;
   Fill "xpath=html/body/div[3]/form/div/div[2]/textarea" 3000 "Multi-year public-facing regional websites for City of Houston";
   LastPage;
   Click "xpath=html/body/div[3]/button" 3000 5000;
   LastPage;
   Click "xpath=html/body/div/div[3]/div[2]/main/div/div[3]/div[2]/div/div/div/div[2]/button[2]" 3000 5000;
   LastPage;
   Click "xpath=html/body/div[3]/form/div[2]/button[2]" 3000 5000;
   LastPage;
   Click "xpath=html/body/div[3]/div[2]/div[6]/div/div/button" 3000 5000;
   LastPage;
   Click "xpath=html/body/div/div[3]/div[2]/main/div/div[3]/div[2]/div/div/div/div[2]/button[2]" 3000 5000;
   LastPage;
   Fill "xpath=html/body/div[3]/form/div/div/input" 3000 "https://www.beaconbid.com/solicitations/city-of-houston/a03e5701-7cba-41b8-b889-daea331fb556/multi-year-public-facing-regional-websites";
   LastPage;
   Fill "xpath=html/body/div[3]/form/div/div[2]/textarea" 3000 "Multi-year public-facing regional websites for City of Houston";
   LastPage;
   Click "xpath=html/body/div[3]/button" 3000 5000;
   LastPage;
   Click "xpath=html/body/div/div[3]/div[2]/main/div/div[3]/div[2]/div/div/div/div[2]/button[2]" 3000 5000;
   LastPage;
   Click "xpath=html/body/div[3]/form/div[2]/button[2]" 3000 5000;
   LastPage;
   ExpectVisibleOr "text=Submission Pipeline Completed Successfully" 1000
     "Test case failed: The submission pipeline execution has failed. The pipeline did not start successfully with the valid submission ID, portal credentials including MFA, and browser options as required by the test plan.";
   Sleep 5].

Definition run_test : B unit := run_steps steps.

End TC005_Submission_Pipeline_Start_submission_workflow_with_valid_credentials_and_browser_options.

(** *** TC007_Portal_Scanning_Trigger_manual_portal_scan_and_receive_real_time_updates.py *)

Module TC007_Portal_Scanning_Trigger_manual_portal_scan_and_receive_real_time_updates.

Definition steps : list action :=
  [Goto "http://localhost:5001/api/scans/trigger" 10000;
   Sleep 3;
   Goto "http://localhost:5001/api" 10000;
   Sleep 3;
   Goto "http://localhost:5001/api/scans/trigger" 10000;
   Sleep 3;
   Goto "http://localhost:5001/api" 10000;
   Sleep 3;
   Goto "http://localhost:5001/api/scans/events?portalId=validPortalId&sessionId=validSessionId" 10000;
   Sleep 3;
   Goto "http://localhost:5001/api/docs" 10000;
   Sleep 3;
   Goto "http://localhost:5001/" 10000;
   Sleep 3;
   Goto "http://localhost:5001/api/scans/progress?portalId=validPortalId&sessionId=validSessionId" 10000;
   Sleep 3;
   Goto "http://localhost:5001/api/scans/stream?portalId=validPortalId&sessionId=validSessionId" 10000;
   Sleep 3;
   ExpectVisibleOr "text=Scan completed successfully" 1000
     "Test case failed: The scan progress was not delivered in real-time via SSE as expected after triggering the scan with valid portalId and sessionId.";
   Sleep 5].

Definition run_test : B unit := run_steps steps.

End TC007_Portal_Scanning_Trigger_manual_portal_scan_and_receive_real_time_updates.

(** *** TC008_Document_Processing_Parse_RFP_document_and_extract_requirements.py *)

Module TC008_Document_Processing_Parse_RFP_document_and_extract_requirements.

Definition steps : list action :=
  [LastPage;
   Click "xpath=html/body/div/div[3]/div[2]/main/div/div[3]/div[2]/div/div/div/div[2]/button[2]" 3000 5000;
   LastPage;
   Fill "xpath=html/body/div[3]/form/div/div/input" 3000 "https://www.beaconbid.com/solicitations/city-of-houston/a03e5701-7cba-41b8-b889-daea331fb556/multi-year-public-facing-regional-websites";
   LastPage;
   Click "xpath=html/body/div[3]/button" 3000 5000;
   LastPage;
   Click "xpath=html/body/div/div[3]/div[2]/main/div/div[3]/div[2]/div/div/div/div[2]/button[2]" 3000 5000;
   LastPage;
   Click "xpath=html/body/div[3]/form/div[2]/button[2]" 3000 5000;
   LastPage;
   Click "xpath=html/body/div/div[3]/div[2]/main/div/div[3]/div[2]/div/div[2]/div/table/tbody/tr/td[6]/div/a/button" 3000 5000;
   WheelBy 400;
   Goto "http://localhost:5001/api/documents/d1c509e8-b1c7-4a4c-aea7-53aae4c3b330/parse" 10000;
   Sleep 3;
   Goto "http://localhost:5001/api/documents/d1c509e8-b1c7-4a4c-aea7-53aae4c3b330/parse" 10000;
   Sleep 3;
   LastPage;
   ExpectVisibleOr "text=AI Parsing Successful" 1000
     "Test case failed: AI-powered parsing of uploaded PDF/Word RFP documents did not extract meaningful requirements or generate compliance checklists accurately as expected.";
   Sleep 5].

Definition run_test : B unit := run_steps steps.

End TC008_Document_Processing_Parse_RFP_document_and_extract_requirements.

End Browser.

(** ** Further API scripts *)



(** *** TC002_create_new_rfp.py *)

Module TC002.

Definition HEADERS : list (string * string) := [("Content-Type", "application/json")].

Definition rfp_payload : json :=
  JObj [("title", JStr "Test RFP for Software Development");
        ("portalId", JStr "portal-12345");
        ("status", JStr "open")].

(** ["id" in v and isinstance(v["id"], str) and v["id"]], as a truth value. *)
Definition has_valid_id (response_json : json) : M bool :=
  has_id <- py_in "id" response_json ;;
  if has_id then
    v <- py_getitem response_json "id" ;;
    if isinstance_str v then
      v' <- py_getitem response_json "id" ;;
      ret (truthy v')
    else ret false
  else ret false.

Definition test_create_new_rfp : M unit :=
  let url := BASE_URL ++ "/api/rfps" in
  try_finally
    (response <- http (mkRequest POST url [] (Some rfp_payload) HEADERS TIMEOUT) ;;
     py_assert (status_code response =? 201) ;;
     response_json <- resp_json response ;;
     ok <- has_valid_id response_json ;;
     py_assert ok)
    (ret tt).

End TC002.

(** *** TC005_get_detailed_rfps_with_compliance_data.py *)

Module TC005.


End TC005.

(** *** TC008_get_all_portals_with_rfp_counts.py *)

Module TC008.




End TC008.

(** *** TC009_start_rfp_discovery_workflow.py *)

Module TC009.

Definition DISCOVERY_ENDPOINT : string := "/api/discovery".

Definition test_start_rfp_discovery_workflow : M unit :=
  let url := BASE_URL ++ DISCOVERY_ENDPOINT in
  let headers := [("Content-Type", "application/json")] in
  try_except
    (response <- http (mkRequest POST url [] None headers TIMEOUT) ;;
     py_assert (status_code response =? 201))
    is_RequestException
    assert_False.

End TC009.

(** * Notions the properties are stated with *)





(** An entry of the listing that satisfies both filters of the request. *)
Definition matches_filters (rfp : json) : Prop :=
  exists d, rfp = JObj d /\
    dict_lookup "status" d = Some (JStr "active") /\
    dict_lookup "portalId" d = Some (JStr "portal-123").

(** The one request the listing script sends: the two filters, no [page] and
    no [limit]. *)
Definition listing_request : Request :=
  mkRequest GET "http://localhost:5173/api/rfps"
    [("status", "active"); ("portalId", "portal-123")] None [] 30.

Definition active_rfp : json :=
  JObj [("id", JInt 1); ("status", JStr "active"); ("portalId", JStr "portal-123")].

(** A world whose first reply is [200] with [n] matching entries. *)
Definition listing_env (n : nat) : Env :=
  mkEnv (fun _ => Responded (mkResponse 200 (Some (JList (repeat active_rfp n)))))
        (fun _ => "").

(** The creation request of the get-by-id script, with the two uuids it
    draws. *)
Definition create_request (u1 u2 : string) : Request :=
  mkRequest POST "http://localhost:5173/api/rfps" []
    (Some (JObj [("rfpId", JStr u1); ("title", JStr ("Test RFP " ++ u2))]))
    [("Content-Type", "application/json")] 30.

(** [GET /api/rfps/<path>] as the get-by-id script sends it. *)
Definition get_rfp_request (path : string) : Request :=
  mkRequest GET ("http://localhost:5173/api/rfps/" ++ path) [] None
    [("Content-Type", "application/json")] 30.

(** The POST of the get-by-id script was answered [201] with an object
    carrying [id]. *)
Definition created_id (E : Env) (id : json) : Prop :=
  exists r0 d, reply E 0 = Responded r0 /\ status_code r0 = 201 /\
    json_body r0 = Some (JObj d) /\ dict_lookup "id" d = Some id.

(** The GET by the captured id was answered [200] with an object whose [id]
    equals it. *)
Definition fetched_id (E : Env) (id : json) : Prop :=
  exists r1 d1, reply E 1 = Responded r1 /\ status_code r1 = 200 /\
    json_body r1 = Some (JObj d1) /\
    py_eq (match dict_lookup "id" d1 with Some x => x | None => JNull end) id = true.

(** Replies of a three-request run: statuses and the body of the first two. *)
Definition three_replies (s0 : Z) (b0 : json) (s1 : Z) (b1 : json) (s2 : Z) : Env :=
  mkEnv (fun n => match n with
                  | O => Responded (mkResponse s0 (Some b0))
                  | S O => Responded (mkResponse s1 (Some b1))
                  | _ => Responded (mkResponse s2 None)
                  end)
        (fun n => match n with O => "u0" | S O => "u1" | _ => "u2" end).

Definition rfp7 : json := JObj [("id", JStr "rfp-7"); ("title", JStr "Test RFP u1")].

(** One possible [repr], for running the scripts on concrete inputs whose
    ids are strings. *)
Definition some_repr (v : json) : string := "<repr>".

(** *** Comparing two runs *)

(** Two outside worlds that answer every request alike; the uuids they hand
    out are unrelated. *)
Definition same_replies (E1 E2 : Env) : Prop :=
  forall n, reply E1 n = reply E2 n.

(** Two runs that have sent equally many requests, recorded the same
    assertion outcomes and bound the same locals; the requests themselves may
    differ. *)
Definition same_course (w1 w2 : World) : Prop :=
  List.length (sent w1) = List.length (sent w2) /\
  outcomes w1 = outcomes w2 /\
  locals w1 = locals w2.

(** Two programs that, run in worlds answering alike from the same course,
    end the same way with results related by [R]. *)
Definition alike {A} (R : A -> A -> Prop) (m1 m2 : M A) : Prop :=
  forall E1 E2 w1 w2, same_replies E1 E2 -> same_course w1 w2 ->
    match m1 E1 w1, m2 E2 w2 with
    | (Ok a1, w1'), (Ok a2, w2') => R a1 a2 /\ same_course w1' w2'
    | (Raise e1, w1'), (Raise e2, w2') => e1 = e2 /\ same_course w1' w2'
    | _, _ => False
    end.

(** A program that neither looks at the world nor changes it. *)
Definition pure {A} (m : M A) : Prop :=
  exists r, forall E w, m E w = (r, w).

(** Two finished runs with the same sequence of assertion outcomes and the
    same end: both returned, or both raised the same exception. *)
Definition same_statuses (r1 r2 : Result unit * World) : Prop :=
  outcomes (snd r1) = outcomes (snd r2) /\ fst r1 = fst r2.

(** The same replies as [E], other uuids. *)
Definition other_uuids (E : Env) : Env :=
  mkEnv (reply E) (fun n => "0fa1" ++ uuid4 E (S n)).

(** *** The proposal-generation script *)


(** The request by which the proposal-generation script creates a profile
    of its own. *)
Definition create_profile_request : Request :=
  mkRequest POST "http://localhost:5173/api/company" []
    (Some (JObj [("name", JStr "Test Company Profile");
                 ("description",
                  JStr "Profile created for testing enhanced proposal generation.")]))
    [("Content-Type", "application/json")] 30.

(** The script's own POST /api/company, the third request of the run, was
    answered [201] with an object carrying a truthy [id]. *)
Definition created_profile (E : Env) (id : json) : Prop :=
  exists r2 d, reply E 2 = Responded r2 /\ status_code r2 = 201 /\
    json_body r2 = Some (JObj d) /\ dict_lookup "id" d = Some id /\
    truthy id = true.

(** GET /api/company, the second request of the run, was answered with the
    JSON body [profiles]. *)
Definition listed_profiles (E : Env) (profiles : json) : Prop :=
  exists r1, reply E 1 = Responded r1 /\ json_body r1 = Some profiles.

(** The request by which the proposal-generation script creates its RFP. *)
Definition post_rfp_request : Request :=
  mkRequest POST "http://localhost:5173/api/rfps" [] (Some TC006.rfp_payload)
    [("Content-Type", "application/json")] 30.

(** Where the proposal-generation run stands once step 1 is over, however
    it ended: one request sent, [rfp_id] bound, no profile chosen yet. *)
Definition after_step1 (w : World) : Prop :=
  exists v, sent w = [post_rfp_request] /\
    locals w = [("rfp_id", v); ("company_profile_id", JNull)].

(** What holds of the proposal-generation run from step 2 on, up to the
    [finally]: both variables of the clean-up are bound; if the script took
    the branch that creates a profile and holds a truthy id, then GET
    /api/company had not returned a non-empty list, the id is the one its own
    POST /api/company returned, and that POST is the third request; if GET
    /api/company returned a non-empty list the creating branch was not taken;
    and no DELETE has been sent. *)
Definition profile_frame (E : Env) (w : World) : Prop :=
  (exists v, dict_lookup "rfp_id" (locals w) = Some v) /\
  (exists c, dict_lookup "company_profile_id" (locals w) = Some c /\
     (dict_lookup "new_profile_payload" (locals w) <> None -> truthy c = true ->
      (exists profiles, listed_profiles E profiles /\
         forall p ps, profiles <> JList (p :: ps)) /\
      created_profile E c /\
      nth_error (sent w) 2 = Some create_profile_request)) /\
  ((exists p ps, listed_profiles E (JList (p :: ps))) ->
   dict_lookup "new_profile_payload" (locals w) = None) /\
  Forall (fun r => req_method r <> DELETE) (sent w).

(** The two requests of the clean-up. *)
Definition delete_rfp_request (url_id : string) : Request :=
  mkRequest DELETE ("http://localhost:5173/api/rfps/" ++ url_id) [] None [] 30.

Definition delete_company_request (url_id : string) : Request :=
  mkRequest DELETE ("http://localhost:5173/api/company/" ++ url_id) [] None [] 30.

(** A run of the proposal-generation script in which GET /api/company
    answers with a single profile object rather than a list. *)
Definition object_listing_env : Env :=
  mkEnv (fun n => match n with
                  | 0%nat => Responded (mkResponse 201 (Some (JObj [("id", JStr "rfp-1")])))
                  | 1%nat => Responded (mkResponse 200 (Some (JObj [("id", JStr "existing")])))
                  | 2%nat => Responded (mkResponse 201 (Some (JObj [("id", JStr "new")])))
                  | 3%nat => Responded (mkResponse 200 (Some (JObj [("sessionId", JStr "s")])))
                  | _ => Unreachable
                  end)
        (fun _ => "").


(** A run of the documents script whose two requests succeed and whose
    DELETE finds the target unreachable. *)
Definition documents_env : Env :=
  mkEnv (fun n => match n with
                  | 0%nat => Responded (mkResponse 201 (Some (JObj [("id", JStr "rfp-1")])))
                  | 1%nat => Responded (mkResponse 200 (Some (JList [])))
                  | _ => Unreachable
                  end)
        (fun _ => "").

(** *** The browser scripts *)






(** A browser in which every operation completes except the [n]-th awaited
    one, which raises [e]; the page has one frame. *)
Definition failing_at (n : nat) (e : exn) : Browser.Oracle :=
  Browser.mkOracle (fun k => if (k =? n)%nat then Some e else None) 1.

(** A target system that cannot be reached. *)
Definition unreachable_env : Env := mkEnv (fun _ => Unreachable) (fun _ => "").

(** *** The status a failure message names *)





(** * Notions for the further properties *)

(** *** The documents script *)

Definition documents_post_request : Request :=
  mkRequest POST "http://localhost:5173/api/rfps" []
    (Some (JObj [("title", JStr "Test RFP for Document Retrieval");
                 ("description",
                  JStr "RFP created for testing the documents retrieval endpoint.");
                 ("status", JStr "open");
                 ("portalId", JStr "test-portal-001")]))
    [("Content-Type", "application/json")] 30.

Definition documents_get_request (url_id : string) : Request :=
  mkRequest GET ("http://localhost:5173/api/rfps/" ++ url_id ++ "/documents") [] None
    [("Content-Type", "application/json")] 30.

Definition documents_delete_request (url_id : string) : Request :=
  mkRequest DELETE ("http://localhost:5173/api/rfps/" ++ url_id) [] None
    [("Content-Type", "application/json")] 30.

(** The second request of a run was answered [200] with a JSON list. *)
Definition listed_documents (E : Env) : Prop :=
  exists r1 items, reply E 1 = Responded r1 /\ status_code r1 = 200 /\
    json_body r1 = Some (JList items).

(** Replies of a two-request run followed by an unreachable target. *)
Definition two_replies (s0 : Z) (b0 : json) (s1 : Z) (b1 : json) : Env :=
  mkEnv (fun n => match n with
                  | O => Responded (mkResponse s0 (Some b0))
                  | S O => Responded (mkResponse s1 (Some b1))
                  | _ => Unreachable
                  end)
        (fun _ => "").

(** *** The proposal-generation script *)

Definition get_company_request : Request :=
  mkRequest GET "http://localhost:5173/api/company" [] None [] 30.

(** The request of step 3 when the script holds the RFP id [v] and the
    profile id [c]. *)
Definition generate_request (v c : json) : Request :=
  mkRequest POST "http://localhost:5173/api/proposals/enhanced/generate" []
    (Some (if truthy c
           then JObj [("rfpId", v); ("companyProfileId", c)]
           else JObj [("rfpId", v)]))
    [("Content-Type", "application/json")] 30.

(** The session id step 3 judges: [sessionId] when it is truthy, otherwise
    [session_id] ([None] standing for an absent key). *)
Definition session_id_of (d : list (string * json)) : json :=
  let s1 := match dict_lookup "sessionId" d with Some x => x | None => JNull end in
  if truthy s1 then s1
  else match dict_lookup "session_id" d with Some x => x | None => JNull end.

(** Step 1 of the proposal-generation script went through: its POST was
    answered [201] with an object carrying a truthy [id]. *)
Definition created_rfp (E : Env) (id : json) : Prop :=
  created_id E id /\ truthy id = true.

(** GET /api/company was answered [200] with a JSON body that is not a
    non-empty list. *)
Definition no_profile_listed (E : Env) : Prop :=
  exists r1 profiles, reply E 1 = Responded r1 /\ status_code r1 = 200 /\
    json_body r1 = Some profiles /\ forall p ps, profiles <> JList (p :: ps).

(** Where the proposal-generation run stands after step 1, with the id the
    run holds. *)
Definition after_step1_holding (E : Env) (w : World) : Prop :=
  exists v, sent w = [post_rfp_request] /\
    locals w = [("rfp_id", v); ("company_profile_id", JNull)] /\
    (forall id, created_id E id -> v = id) /\
    ((forall id, ~ created_id E id) -> v = JNull).

(** *** The get-by-id script *)

(** What [create_rfp] raises on a [201] whose JSON body [j] is not an
    object: the membership test ["id" in j] raises [TypeError] on a scalar;
    on a string or list it is a containment test, and when that succeeds the
    subscript [j["id"]] raises [TypeError]. *)
Definition non_object_raises (j : json) : exn :=
  match j with
  | JStr s => if str_contains "id" s then TypeError else AssertionError
  | JList l => if existsb (fun x => py_eq x (JStr "id")) l then TypeError
               else AssertionError
  | _ => TypeError
  end.

(** *** The further API scripts *)

Definition discovery_request : Request :=
  mkRequest POST "http://localhost:5173/api/discovery" [] None
    [("Content-Type", "application/json")] 30.

(** The first request of a run was answered [201] with an object whose [id]
    is the non-empty string [s]. *)
Definition created_with_string_id (E : Env) (s : string) : Prop :=
  exists r0 d, reply E 0 = Responded r0 /\ status_code r0 = 201 /\
    json_body r0 = Some (JObj d) /\ dict_lookup "id" d = Some (JStr s) /\ s <> "".


(** A world whose first reply is [st] with the JSON body [b]. *)
Definition one_reply (st : Z) (b : json) : Env :=
  mkEnv (fun _ => Responded (mkResponse st (Some b))) (fun _ => "").

(** *** The browser scripts *)

(** The number of operations a step awaits. *)
Definition cost (a : Browser.action) : nat :=
  match a with
  | Browser.LastPage | Browser.Sleep _ => 0
  | Browser.Goto _ _ | Browser.WheelBy _
  | Browser.ExpectVisible _ _ | Browser.ExpectVisibleOr _ _ _ => 1
  | Browser.Click _ _ _ | Browser.Fill _ _ _ | Browser.WheelPage => 2
  end.

Definition total_cost (steps : list Browser.action) : nat :=
  list_sum (map cost steps).

(** The awaited operations whose Playwright error a script swallows: the
    wait for the load state of the page (the sixth awaited operation) and of
    each of its frames. *)
Definition tolerated (O : Browser.Oracle) (j : nat) : Prop :=
  (5 <= j < 6 + Browser.frames O)%nat /\
  Browser.awaited O j = Some PlaywrightError.

(** A program that awaits exactly [n] operations when none raises, and that
    stops at the first one that raises, with its exception. *)
Definition steady (m : Browser.B unit) (n : nat) : Prop :=
  forall (O : Browser.Oracle) (s : Browser.Session),
    ((forall j, (Browser.awaits s <= j < Browser.awaits s + n)%nat ->
                Browser.awaited O j = None) ->
     fst (m O s) = Ok tt /\
     Browser.awaits (snd (m O s)) = (Browser.awaits s + n)%nat) /\
    (forall k e,
       (Browser.awaits s <= k < Browser.awaits s + n)%nat ->
       (forall j, (Browser.awaits s <= j < k)%nat -> Browser.awaited O j = None) ->
       Browser.awaited O k = Some e ->
       fst (m O s) = Raise e /\ Browser.awaits (snd (m O s)) = S k).
(** * Properties *)

(** ** Strings *)







Lemma py_eq_str (v : json) (s : string) : py_eq v (JStr s) = true <-> v = JStr s.
Proof.
  destruct v; simpl; try (split; [discriminate | discriminate]).
  rewrite String.eqb_eq. split; [now intros -> | now intros [= ->]].
Qed.

(** ** Running a script symbolically *)

#[local] Arguments existsb : simpl never.

Ltac unfold_script :=
  cbv delta [bind ret raise try_except try_finally http py_assert assert_False
       raise_for_status resp_json py_get py_in py_getitem py_len py_iter
       py_first set_local get_local in_locals uuid_str overall].

(** One case split of a symbolic run, on whatever the run is stuck on. *)
Ltac split_run_step :=
  match goal with
  | |- context [match reply ?E ?n with Responded _ => _ | Unreachable => _ end] =>
      destruct (reply E n) as [[? ?]|] eqn:?
  | |- context [if ?st =? ?k then _ else _] =>
      is_var st; destruct (Z.eqb_spec st k) as [->|?]
  | |- context [if (400 <=? ?st) && (?st <? 600) then _ else _] =>
      destruct ((400 <=? st) && (st <? 600)) eqn:?
  | |- context [match ?b with Some _ => _ | None => _ end] =>
      match type of b with option _ => destruct b eqn:? end
  | |- context [match ?j with JNull => _ | JBool _ => _ | JInt _ => _
                | JFloat _ => _ | JStr _ => _ | JList _ => _ | JObj _ => _ end] =>
      is_var j; destruct j
  | |- context [match ?l with [] => _ | _ :: _ => _ end] =>
      is_var l; destruct l
  | |- context [if ?b then _ else _] =>
      match type of b with bool => destruct b eqn:? end
  end.

Ltac split_run := cbn; repeat (split_run_step; cbn).

(** Opens up the facts at hand: existentials, conjunctions and equations
    between constructors. *)
Ltac unpack :=
  repeat match goal with
         | H : exists _, _ |- _ => destruct H
         | H : _ /\ _ |- _ => destruct H
         | H : Responded _ = Responded _ |- _ => injection H as H; subst
         | H : Some _ = Some _ |- _ => injection H as H; subst
         | H : Ok _ = Ok _ |- _ => injection H as H; subst
         | H : Raise _ = Raise _ |- _ => injection H as H; subst
         | H : JObj _ = JObj _ |- _ => injection H as H; subst
         | H : JList _ = JList _ |- _ => injection H as H; subst
         | H : JStr _ = JStr _ |- _ => injection H as H; subst
         | H1 : ?a = Some _, H2 : ?a = Some _ |- _ =>
             rewrite H1 in H2; injection H2 as H2; subst
         | H1 : dict_lookup ?k ?d = _, H2 : context [dict_lookup ?k ?d] |- _ =>
             rewrite H1 in H2
         | H : context [status_code (mkResponse _ _)] |- _ => cbn in H
         | H : context [json_body (mkResponse _ _)] |- _ => cbn in H
         end.

(** Closing a case: the facts at hand contradict each other, or settle the
    goal. *)
Ltac settle :=
  intros; unpack; cbn in *;
  first [ congruence
        | reflexivity
        | repeat (split || eexists); cbn;
          repeat match goal with
                 | H : dict_lookup ?k ?d = _ |- context [dict_lookup ?k ?d] =>
                     rewrite H
                 end;
          first [reflexivity | eassumption | congruence] ].

(** ** The health check (TC010) *)








(** ** The listing scenario (TC001) *)

Lemma check_rfp_run (rfp : json) (E : Env) (w : World) :
  (fst (TC001.check_rfp rfp E w) = Ok tt <-> matches_filters rfp) /\
  sent (snd (TC001.check_rfp rfp E w)) = sent w /\
  (forall e, fst (TC001.check_rfp rfp E w) = Raise e -> e = AssertionError).
Proof.
  unfold TC001.check_rfp, matches_filters. unfold_script. cbn.
  destruct rfp; cbn;
    try (split; [split; [discriminate | intros (d' & [=] & _)]
                | split; [reflexivity | now intros e [= <-]]]).
  destruct (dict_lookup "status" d) as [st|] eqn:Hst; cbn;
    [destruct (py_eq st (JStr "active")) eqn:Est; cbn;
     [destruct (dict_lookup "portalId" d) as [pid|] eqn:Hpid; cbn;
      [destruct (py_eq pid (JStr "portal-123")) eqn:Epid; cbn|]|]|];
    (split; [|split; [reflexivity | intros e [= <-]; reflexivity || discriminate]]).
  - apply py_eq_str in Est as ->. apply py_eq_str in Epid as ->.
    split; [intros _; now exists d | reflexivity].
  - split; [discriminate | intros (d' & [= <-] & _ & Hp)].
    rewrite Hp in Hpid. injection Hpid as <-.
    now rewrite (proj2 (py_eq_str _ _) eq_refl) in Epid.
  - split; [discriminate | intros (d' & [= <-] & _ & Hp)]. congruence.
  - split; [discriminate | intros (d' & [= <-] & Hs & _)].
    rewrite Hs in Hst. injection Hst as <-.
    now rewrite (proj2 (py_eq_str _ _) eq_refl) in Est.
  - split; [discriminate | intros (d' & [= <-] & Hs & _)]. congruence.
Qed.

Lemma for_each_check_rfp (items : list json) (E : Env) (w : World) :
  (fst (for_each items TC001.check_rfp E w) = Ok tt <-> Forall matches_filters items) /\
  sent (snd (for_each items TC001.check_rfp E w)) = sent w /\
  (forall e, fst (for_each items TC001.check_rfp E w) = Raise e -> e = AssertionError).
Proof.
  revert w; induction items as [|x items IH]; intros w; cbn.
  - split; [split; [constructor | reflexivity] | split; [reflexivity | discriminate]].
  - unfold bind.
    destruct (check_rfp_run x E w) as (Hok & Hsent & Hexn).
    destruct (TC001.check_rfp x E w) as [[[]|e] w'] eqn:Hx; cbn in *.
    + destruct (IH w') as (IHok & IHsent & IHexn).
      split; [|split; [congruence | exact IHexn]].
      rewrite IHok. split; [intros H; constructor; [now apply Hok | exact H]
                           | now inversion 1].
    + split; [|split; [exact Hsent | intros e' [= <-]; now apply Hexn]].
      split; [discriminate | inversion 1; subst].
      now apply Hok in H2.
Qed.

Lemma listing_run (E : Env) :
  let run := TC001.test_get_all_rfps_with_pagination_and_filtering E start in
  sent (snd run) = [listing_request] /\
  (forall e, fst run = Raise e -> e = AssertionError) /\
  (fst run = Ok tt <->
   exists r items,
     reply E 0 = Responded r /\ status_code r = 200 /\
     json_body r = Some (JList items) /\
     (List.length items <= 20)%nat /\ Forall matches_filters items).
Proof.
  unfold TC001.test_get_all_rfps_with_pagination_and_filtering.
  unfold_script. cbn.
  destruct (reply E 0) as [[st body]|] eqn:HE; cbn.
  2:{ split; [reflexivity|]. split; [now intros e [= <-]|].
      split; [discriminate | intros (r & items & [=] & _)]. }
  destruct (Z.eqb_spec st 200) as [->|Hst]; cbn.
  2:{ destruct ((400 <=? st) && (st <? 600)); cbn.
      - split; [reflexivity|]. split; [now intros e [= <-]|].
        split; [discriminate | intros (r & items & [= <-] & Hs & _)]. now cbn in Hs.
      - rewrite (proj2 (Z.eqb_neq st 200) Hst). cbn.
        split; [reflexivity|]. split; [now intros e [= <-]|].
        split; [discriminate | intros (r & items & [= <-] & Hs & _)]. now cbn in Hs. }
  destruct body as [j|]; cbn.
  2:{ split; [reflexivity|]. split; [now intros e [= <-]|].
      split; [discriminate | intros (r & items & [= <-] & _ & [=] & _)]. }
  destruct j; cbn;
    try (split; [reflexivity|]; split; [now intros e [= <-]|];
         split; [discriminate | intros (r & items & [= <-] & _ & [=] & _)]).
  destruct (Z.leb_spec (Z.of_nat (List.length l)) 20) as [Hn|Hn]; cbn.
  2:{ split; [reflexivity|]. split; [now intros e [= <-]|].
      split; [discriminate | intros (r & items & [= <-] & _ & [= <-] & Hl & _)]. lia. }
  match goal with
  | |- context [for_each l TC001.check_rfp E ?w] =>
      destruct (for_each_check_rfp l E w) as (Hok & Hsent & Hexn)
  end.
  split; [exact Hsent|]. split; [exact Hexn|].
  rewrite Hok. split.
  - intros HF. exists (mkResponse 200 (Some (JList l))), l. repeat split; trivial. lia.
  - now intros (r & items & [= <-] & _ & [= <-] & _ & HF).
Qed.

(** C4. The listing script sends one GET of /api/rfps carrying the status
    and portalId filters and neither page nor limit.  Its run passes exactly
    when the reply has status 200 and a body that is a JSON list of at most
    20 entries, each an object whose status and portalId equal the filter
    values; it fails when more than 20 entries come back or an entry
    violates a filter. *)
Theorem listing_passes_iff_filtered_page :
  (forall (E : Env) (r : Response),
     reply E 0 = Responded r ->
     overall (TC001.test_get_all_rfps_with_pagination_and_filtering E start) = Passed <->
     status_code r = 200 /\
     exists items, json_body r = Some (JList items) /\
       (List.length items <= 20)%nat /\ Forall matches_filters items) /\
  (forall E : Env,
     sent (snd (TC001.test_get_all_rfps_with_pagination_and_filtering E start)) =
     [listing_request]) /\
  (forall (E : Env) (r : Response) (items : list json),
     reply E 0 = Responded r -> json_body r = Some (JList items) ->
     (20 < List.length items)%nat \/ ~ Forall matches_filters items ->
     overall (TC001.test_get_all_rfps_with_pagination_and_filtering E start) = Failed).
Proof.
  assert (G : forall (E : Env) (r : Response),
     reply E 0 = Responded r ->
     overall (TC001.test_get_all_rfps_with_pagination_and_filtering E start) = Passed <->
     status_code r = 200 /\
     exists items, json_body r = Some (JList items) /\
       (List.length items <= 20)%nat /\ Forall matches_filters items).
  { intros E r H. destruct (listing_run E) as (_ & _ & Hok). unfold overall.
    destruct (fst _) as [[]|e].
    - split; [intros _ | reflexivity].
      destruct (proj1 Hok eq_refl) as (r' & items & Hr & Hs & Hb & Hl & HF).
      rewrite H in Hr. injection Hr as <-. split; [exact Hs | now exists items].
    - split; [discriminate | intros (Hs & items & Hb & Hl & HF)].
      enough (@Raise unit e = Ok tt) by discriminate.
      apply Hok. now exists r, items. }
  split; [exact G|]. split; [intros E; apply (listing_run E)|].
  intros E r items H Hb Hbad.
  destruct (overall _) eqn:Hv; [|reflexivity].
  apply (G E r H) in Hv as (_ & items' & Hb' & Hl & HF).
  rewrite Hb in Hb'. injection Hb' as <-. destruct Hbad; [lia | contradiction].
Qed.

Lemma listing_passes_iff_filtered_page_witness :
  overall (TC001.test_get_all_rfps_with_pagination_and_filtering (listing_env 2) start)
    = Passed /\
  overall (TC001.test_get_all_rfps_with_pagination_and_filtering (listing_env 21) start)
    = Failed.
Proof.
  split.
  - apply (proj1 listing_passes_iff_filtered_page (listing_env 2) _ eq_refl).
    split; [reflexivity|]. exists (repeat active_rfp 2).
    split; [reflexivity|]. split; [simpl; lia|].
    repeat constructor; now exists [("id", JInt 1); ("status", JStr "active");
                                     ("portalId", JStr "portal-123")].
  - apply (proj2 (proj2 listing_passes_iff_filtered_page) (listing_env 21) _
             (repeat active_rfp 21) eq_refl eq_refl).
    left. simpl. lia.
Defined.

(** ** Create, then get by id (TC003) *)

Section GetById.
Variable py_repr : json -> string.

Ltac unfold_get_by_id :=
  unfold TC003.test_get_specific_rfp_by_id, TC003.step_get_by_id,
    TC003.step_not_found, TC003.create_rfp, TC003.delete_rfp,
    create_request, get_rfp_request;
  unfold_script.

Lemma get_by_id_run (E : Env) :
  let run := TC003.test_get_specific_rfp_by_id py_repr E start in
  (overall run = Passed <->
   exists id r2, created_id E id /\ fetched_id E id /\
     reply E 2 = Responded r2 /\ status_code r2 = 404) /\
  nth_error (sent (snd run)) 0 = Some (create_request (uuid4 E 0) (uuid4 E 1)) /\
  (forall id, created_id E id ->
     nth_error (sent (snd run)) 1 = Some (get_rfp_request (py_str py_repr id)) /\
     dict_lookup "rfp_id" (locals (snd run)) = Some id) /\
  (forall r0, reply E 0 = Responded r0 -> status_code r0 <> 201 ->
     overall run = Failed /\
     sent (snd run) = [create_request (uuid4 E 0) (uuid4 E 1)]).
Proof.
  unfold created_id, fetched_id. unfold_get_by_id.
  split_run.
  all: repeat split; try reflexivity; try discriminate.
  all: solve [settle].
Qed.

Lemma step_not_found_run (E : Env) (w : World) :
  let run := TC003.step_not_found E w in
  sent (snd run) =
    (sent w ++ [get_rfp_request ("nonexistent-" ++ uuid4 E (drawn w))])%list /\
  (forall r, reply E (List.length (sent w)) = Responded r ->
     (fst run = Ok tt <-> status_code r = 404) /\
     (status_code r <> 404 -> fst run = Raise AssertionError)).
Proof.
  unfold TC003.step_not_found, get_rfp_request. unfold_script.
  split_run.
  all: repeat split; try reflexivity; try discriminate.
  all: solve [settle].
Qed.

(** C5. The check against a fresh non-existent id sends
    GET /api/rfps/nonexistent-<uuid>; for every response to it the step
    passes exactly when the status is 404 and fails for any other status, 200
    and 500 included; once the two earlier steps have passed, the verdict of
    the whole run is decided the same way. *)
Theorem not_found_step_passes_only_on_404 :
  (forall (E : Env) (w : World) (r : Response),
     reply E (List.length (sent w)) = Responded r ->
     (fst (TC003.step_not_found E w) = Ok tt <-> status_code r = 404) /\
     (status_code r <> 404 -> fst (TC003.step_not_found E w) = Raise AssertionError)) /\
  (forall (E : Env) (w : World),
     sent (snd (TC003.step_not_found E w)) =
     (sent w ++ [get_rfp_request ("nonexistent-" ++ uuid4 E (drawn w))])%list) /\
  (forall (E : Env) (w : World) (b : option json),
     reply E (List.length (sent w)) = Responded (mkResponse 200 b) \/
     reply E (List.length (sent w)) = Responded (mkResponse 500 b) ->
     overall (TC003.step_not_found E w) = Failed) /\
  (forall (E : Env) (id : json) (r2 : Response),
     created_id E id -> fetched_id E id -> reply E 2 = Responded r2 ->
     overall (TC003.test_get_specific_rfp_by_id py_repr E start) = Passed <->
     status_code r2 = 404).
Proof.
  split; [intros E w r H; now apply (step_not_found_run E w)|].
  split; [intros E w; apply (step_not_found_run E w)|].
  split.
  - intros E w b [H|H]; unfold overall;
      now rewrite (proj2 (proj2 (step_not_found_run E w) _ H)).
  - intros E id r2 Hc Hf H2.
    rewrite (proj1 (get_by_id_run E)). split.
    + intros (id' & r2' & _ & _ & H2' & Hs). rewrite H2 in H2'. now injection H2' as <-.
    + intros Hs. now exists id, r2.
Qed.

(** C3. In the create-then-get scenario a passing run had its POST to
    /api/rfps answered 201 with an object carrying [id]; the second request
    of the run is the GET of /api/rfps/<that id>; and it was answered 200 with
    an object whose [id] equals the captured one.  Whenever the POST yields an
    id, that id is the one the GET uses and the one the run's variable
    [rfp_id] holds to the end.  If the POST is answered with a status other
    than 201, the run fails having sent the POST only: the GET is never
    executed. *)
Theorem create_then_get_uses_captured_id (E : Env) :
  let run := TC003.test_get_specific_rfp_by_id py_repr E start in
  (overall run = Passed ->
   exists id, created_id E id /\
     nth_error (sent (snd run)) 1 = Some (get_rfp_request (py_str py_repr id)) /\
     fetched_id E id) /\
  (forall id, created_id E id ->
     nth_error (sent (snd run)) 1 = Some (get_rfp_request (py_str py_repr id)) /\
     dict_lookup "rfp_id" (locals (snd run)) = Some id) /\
  (forall r0, reply E 0 = Responded r0 -> status_code r0 <> 201 ->
     overall run = Failed /\
     sent (snd run) = [create_request (uuid4 E 0) (uuid4 E 1)]).
Proof.
  intros run. destruct (get_by_id_run E) as (Hpass & _ & Hid & Hfail).
  fold run in Hpass, Hid, Hfail.
  split; [|split; [exact Hid | exact Hfail]].
  intros Hp. apply Hpass in Hp as (id & r2 & Hc & Hf & _).
  exists id. split; [exact Hc|]. split; [apply (Hid id Hc) | exact Hf].
Qed.

End GetById.

Lemma not_found_step_passes_only_on_404_witness :
  overall (TC003.test_get_specific_rfp_by_id some_repr
             (three_replies 201 rfp7 200 rfp7 404) start) = Passed /\
  overall (TC003.step_not_found (three_replies 500 rfp7 200 rfp7 404) start) = Failed.
Proof.
  split.
  - apply (proj2 (proj2 (proj2 (not_found_step_passes_only_on_404 some_repr)))
             (three_replies 201 rfp7 200 rfp7 404) (JStr "rfp-7")
             (mkResponse 404 None)).
    + exists (mkResponse 201 (Some rfp7)), [("id", JStr "rfp-7"); ("title", JStr "Test RFP u1")].
      repeat split; reflexivity.
    + exists (mkResponse 200 (Some rfp7)), [("id", JStr "rfp-7"); ("title", JStr "Test RFP u1")].
      repeat split; reflexivity.
    + reflexivity.
    + reflexivity.
  - apply (proj1 (proj2 (proj2 (not_found_step_passes_only_on_404 some_repr)))
             (three_replies 500 rfp7 200 rfp7 404) start (Some rfp7)).
    right. reflexivity.
Defined.

Lemma create_then_get_uses_captured_id_witness :
  nth_error (sent (snd (TC003.test_get_specific_rfp_by_id some_repr
                          (three_replies 201 rfp7 200 rfp7 404) start))) 1
    = Some (get_rfp_request "rfp-7") /\
  sent (snd (TC003.test_get_specific_rfp_by_id some_repr
               (three_replies 500 rfp7 200 rfp7 404) start))
    = [create_request "u0" "u1"].
Proof.
  split.
  - apply (proj1 (proj2 (create_then_get_uses_captured_id some_repr
                           (three_replies 201 rfp7 200 rfp7 404))) (JStr "rfp-7")).
    exists (mkResponse 201 (Some rfp7)), [("id", JStr "rfp-7"); ("title", JStr "Test RFP u1")].
    repeat split; reflexivity.
  - apply (proj2 (proj2 (create_then_get_uses_captured_id some_repr
                           (three_replies 500 rfp7 200 rfp7 404)))
             (mkResponse 500 (Some rfp7)) eq_refl).
    simpl. lia.
Defined.

(** ** Determinism *)

Lemma same_course_refl (w : World) : same_course w w.
Proof. now repeat split. Qed.

Lemma alike_ret {A} (R : A -> A -> Prop) (a1 a2 : A) :
  R a1 a2 -> alike R (ret a1) (ret a2).
Proof. intros H E1 E2 w1 w2 _ Hw. now split. Qed.

Lemma alike_raise {A} (R : A -> A -> Prop) (e : exn) : alike R (raise e) (raise e).
Proof. intros E1 E2 w1 w2 _ Hw. now split. Qed.

Lemma alike_pure {A} (m : M A) : pure m -> alike eq m m.
Proof.
  intros [r H] E1 E2 w1 w2 _ Hw. rewrite !H. now destruct r.
Qed.

Lemma alike_bind {A B} (R : A -> A -> Prop) (S : B -> B -> Prop)
    (m1 m2 : M A) (k1 k2 : A -> M B) :
  alike R m1 m2 -> (forall a1 a2, R a1 a2 -> alike S (k1 a1) (k2 a2)) ->
  alike S (bind m1 k1) (bind m2 k2).
Proof.
  intros Hm Hk E1 E2 w1 w2 HE Hw. unfold bind.
  specialize (Hm E1 E2 w1 w2 HE Hw).
  destruct (m1 E1 w1) as [[a1|e1] w1'], (m2 E2 w2) as [[a2|e2] w2']; try contradiction.
  - destruct Hm as [Ha Hw']. exact (Hk a1 a2 Ha E1 E2 w1' w2' HE Hw').
  - exact Hm.
Qed.

Lemma alike_try_except {A} (R : A -> A -> Prop) (m1 m2 h1 h2 : M A) (c : exn -> bool) :
  alike R m1 m2 -> alike R h1 h2 -> alike R (try_except m1 c h1) (try_except m2 c h2).
Proof.
  intros Hm Hh E1 E2 w1 w2 HE Hw. unfold try_except.
  specialize (Hm E1 E2 w1 w2 HE Hw).
  destruct (m1 E1 w1) as [[a1|e1] w1'], (m2 E2 w2) as [[a2|e2] w2']; try contradiction.
  - exact Hm.
  - destruct Hm as [<- Hw']. destruct (c e1); [exact (Hh E1 E2 w1' w2' HE Hw') | now split].
Qed.

Lemma alike_try_finally {A} (R : A -> A -> Prop) (m1 m2 : M A) (f1 f2 : M unit) :
  alike R m1 m2 -> alike eq f1 f2 -> alike R (try_finally m1 f1) (try_finally m2 f2).
Proof.
  intros Hm Hf E1 E2 w1 w2 HE Hw. unfold try_finally.
  specialize (Hm E1 E2 w1 w2 HE Hw).
  destruct (m1 E1 w1) as [[a1|e1] w1'], (m2 E2 w2) as [[a2|e2] w2']; try contradiction;
    destruct Hm as [Ha Hw']; specialize (Hf E1 E2 w1' w2' HE Hw');
    destruct (f1 E1 w1') as [[[]|x1] v1], (f2 E2 w2') as [[[]|x2] v2];
    try contradiction; destruct Hf as [Hx Hv]; now split.
Qed.

Lemma alike_http (r1 r2 : Request) : alike eq (http r1) (http r2).
Proof.
  intros E1 E2 w1 w2 HE (Hs & Ho & Hl). unfold http.
  rewrite (HE (List.length (sent w1))), Hs.
  destruct (reply E2 _); (split; [reflexivity|]);
    (split; [cbn [sent]; now rewrite !length_app, Hs | now split]).
Qed.

Lemma alike_assert (c : bool) : alike eq (py_assert c) (py_assert c).
Proof.
  intros E1 E2 w1 w2 _ (Hs & Ho & Hl). unfold py_assert.
  destruct c; cbn; (split; [reflexivity|]); repeat split; cbn; congruence.
Qed.

Lemma alike_assert_False {A} (R : A -> A -> Prop) : alike R assert_False assert_False.
Proof.
  intros E1 E2 w1 w2 _ (Hs & Ho & Hl). unfold assert_False.
  cbn; (split; [reflexivity|]); repeat split; cbn; congruence.
Qed.

Lemma alike_uuid : alike (fun _ _ => True) uuid_str uuid_str.
Proof. intros E1 E2 w1 w2 _ (Hs & Ho & Hl). cbn. now repeat split. Qed.

Lemma alike_set_local (x : string) (v : json) : alike eq (set_local x v) (set_local x v).
Proof.
  intros E1 E2 w1 w2 _ (Hs & Ho & Hl). cbn. repeat split; cbn; congruence.
Qed.

Lemma alike_get_local (x : string) : alike eq (get_local x) (get_local x).
Proof.
  intros E1 E2 w1 w2 _ (Hs & Ho & Hl). unfold get_local. rewrite Hl.
  destruct (dict_lookup x (locals w2)); now repeat split.
Qed.

Lemma alike_in_locals (x : string) : alike eq (in_locals x) (in_locals x).
Proof.
  intros E1 E2 w1 w2 _ (Hs & Ho & Hl). unfold in_locals. rewrite Hl.
  now repeat split.
Qed.

Lemma alike_for_each {A} (l : list A) (body : A -> M unit) :
  (forall x, alike eq (body x) (body x)) -> alike eq (for_each l body) (for_each l body).
Proof.
  intros Hb. induction l as [|x l IH]; cbn.
  - now apply alike_ret.
  - apply (alike_bind eq); [apply Hb | intros; exact IH].
Qed.

Lemma pure_ret {A} (a : A) : pure (ret a : M A).
Proof. now exists (Ok a). Qed.

Lemma pure_raise {A} (e : exn) : pure (raise e : M A).
Proof. now exists (Raise e). Qed.

Lemma pure_raise_for_status (r : Response) : pure (raise_for_status r).
Proof. unfold raise_for_status. destruct (_ && _); [apply pure_raise | apply pure_ret]. Qed.

Lemma pure_resp_json (r : Response) : pure (resp_json r).
Proof. unfold resp_json. destruct (json_body r); [apply pure_ret | apply pure_raise]. Qed.

Lemma pure_py_get (v : json) (k : string) : pure (py_get v k).
Proof. destruct v; cbn; (apply pure_ret || apply pure_raise). Qed.

Lemma pure_py_in (k : string) (v : json) : pure (py_in k v).
Proof. destruct v; cbn; (apply pure_ret || apply pure_raise). Qed.

Lemma pure_py_getitem (v : json) (k : string) : pure (py_getitem v k).
Proof.
  destruct v; cbn; try apply pure_raise.
  destruct (dict_lookup k d); [apply pure_ret | apply pure_raise].
Qed.

Lemma pure_py_len (v : json) : pure (py_len v).
Proof. destruct v; cbn; (apply pure_ret || apply pure_raise). Qed.

Lemma pure_py_iter (v : json) : pure (py_iter v).
Proof. destruct v; cbn; (apply pure_ret || apply pure_raise). Qed.

Lemma pure_py_first (v : json) : pure (py_first v).
Proof.
  destruct v as [| | | |s|l|d]; cbn; try apply pure_raise.
  - destruct s; [apply pure_raise | apply pure_ret].
  - destruct l; [apply pure_raise | apply pure_ret].
Qed.

Create HintDb alike discriminated.
#[local] Hint Resolve alike_http alike_assert alike_assert_False alike_uuid
  alike_set_local alike_get_local alike_in_locals alike_raise
  pure_ret pure_raise pure_raise_for_status pure_resp_json pure_py_get pure_py_in
  pure_py_getitem pure_py_len pure_py_iter pure_py_first : alike.

(** Walks two copies of a script in step. *)
Ltac in_step :=
  repeat first
    [ match goal with
      | |- alike _ (bind uuid_str _) (bind uuid_str _) =>
          apply (alike_bind (fun _ _ => True)); [apply alike_uuid | intros ? ? _]
      | |- alike _ (bind _ _) (bind _ _) =>
          apply (alike_bind eq); [ | intros ? ? <-]
      | |- alike _ (try_except _ _ _) (try_except _ _ _) => apply alike_try_except
      | |- alike _ (try_finally _ _) (try_finally _ _) => apply alike_try_finally
      | |- alike _ (for_each _ _) (for_each _ _) => apply alike_for_each; intros ?
      | |- alike _ (ret _) (ret _) => apply alike_ret; reflexivity
      | |- alike _ (if ?c then _ else _) (if ?c then _ else _) => destruct c
      | |- alike _ (match ?v with JStr _ => _ | _ => _ end)
                   (match ?v with JStr _ => _ | _ => _ end) => destruct v
      end
    | solve [auto with alike]
    | solve [apply alike_pure; auto with alike] ].

Lemma alike_statuses (m1 m2 : M unit) (E1 E2 : Env) :
  alike eq m1 m2 -> same_replies E1 E2 -> same_statuses (m1 E1 start) (m2 E2 start).
Proof.
  intros H HE. specialize (H E1 E2 start start HE (same_course_refl start)).
  unfold same_statuses.
  destruct (m1 E1 start) as [[[]|e1] w1], (m2 E2 start) as [[[]|e2] w2];
    try contradiction; destruct H as (H & _ & Ho & _); cbn; split; congruence.
Qed.

Lemma TC010_alike :
  alike eq TC010.test_health_check_endpoint_returns_system_healthy
           TC010.test_health_check_endpoint_returns_system_healthy.
Proof. unfold TC010.test_health_check_endpoint_returns_system_healthy. in_step. Qed.

Lemma TC001_alike :
  alike eq TC001.test_get_all_rfps_with_pagination_and_filtering
           TC001.test_get_all_rfps_with_pagination_and_filtering.
Proof.
  unfold TC001.test_get_all_rfps_with_pagination_and_filtering, TC001.check_rfp.
  in_step.
Qed.

Lemma TC003_alike (py_repr : json -> string) :
  alike eq (TC003.test_get_specific_rfp_by_id py_repr)
           (TC003.test_get_specific_rfp_by_id py_repr).
Proof.
  unfold TC003.test_get_specific_rfp_by_id, TC003.create_rfp, TC003.step_get_by_id,
    TC003.step_not_found, TC003.delete_rfp.
  in_step.
Qed.

Lemma TC004_alike (py_repr : json -> string) :
  alike eq (TC004.test_get_documents_for_specific_rfp py_repr)
           (TC004.test_get_documents_for_specific_rfp py_repr).
Proof.
  unfold TC004.test_get_documents_for_specific_rfp, TC004.prologue, TC004.main,
    TC004.cleanup.
  in_step.
Qed.

Lemma TC006_alike (py_repr : json -> string) :
  alike eq (TC006.test_enhanced_ai_powered_proposal_generation py_repr)
           (TC006.test_enhanced_ai_powered_proposal_generation py_repr).
Proof.
  unfold TC006.test_enhanced_ai_powered_proposal_generation, TC006.prologue, TC006.main,
    TC006.step1_create_rfp, TC006.step2_company_profile, TC006.step3_generate_proposal,
    TC006.cleanup, TC006.cleanup_rfp, TC006.cleanup_company.
  in_step.
Qed.

Lemma health_reads_first_reply (E1 E2 : Env) :
  reply E1 0 = reply E2 0 ->
  TC010.test_health_check_endpoint_returns_system_healthy E1 start =
  TC010.test_health_check_endpoint_returns_system_healthy E2 start.
Proof.
  intros H. unfold TC010.test_health_check_endpoint_returns_system_healthy.
  unfold_script. cbn. rewrite H.
  destruct (reply E2 0) as [[st body]|]; split_run; try reflexivity.
  all: match goal with |- context [match ?x with JNull => _ | _ => _ end] =>
         destruct x end; reflexivity.
Qed.

(** C1. Two runs of the same script that receive the same sequence of
    replies record the same sequence of assertion outcomes and end the same
    way, whatever uuids each run draws: this holds for the listing, the
    get-by-id (whose [create_rfp] embeds fresh uuids in its request), the
    documents, the proposal-generation and the health-check scripts.  The run
    of the health check is moreover a function of the first reply alone. *)
Theorem runs_are_deterministic :
  (forall E1 E2 : Env,
     reply E1 0 = reply E2 0 ->
     TC010.test_health_check_endpoint_returns_system_healthy E1 start =
     TC010.test_health_check_endpoint_returns_system_healthy E2 start) /\
  (forall (py_repr : json -> string) (E1 E2 : Env),
     same_replies E1 E2 ->
     same_statuses (TC003.test_get_specific_rfp_by_id py_repr E1 start)
                   (TC003.test_get_specific_rfp_by_id py_repr E2 start) /\
     same_statuses (TC004.test_get_documents_for_specific_rfp py_repr E1 start)
                   (TC004.test_get_documents_for_specific_rfp py_repr E2 start) /\
     same_statuses (TC006.test_enhanced_ai_powered_proposal_generation py_repr E1 start)
                   (TC006.test_enhanced_ai_powered_proposal_generation py_repr E2 start) /\
     same_statuses (TC001.test_get_all_rfps_with_pagination_and_filtering E1 start)
                   (TC001.test_get_all_rfps_with_pagination_and_filtering E2 start) /\
     same_statuses (TC010.test_health_check_endpoint_returns_system_healthy E1 start)
                   (TC010.test_health_check_endpoint_returns_system_healthy E2 start)).
Proof.
  split; [exact health_reads_first_reply|].
  intros py_repr E1 E2 HE. repeat split.
  all: try (apply alike_statuses; [|exact HE]).
  - apply TC003_alike.
  - apply TC003_alike.
  - apply TC004_alike.
  - apply TC004_alike.
  - apply TC006_alike.
  - apply TC006_alike.
  - apply TC001_alike.
  - apply TC001_alike.
  - apply TC010_alike.
  - apply TC010_alike.
Qed.

Lemma runs_are_deterministic_witness :
  same_statuses
    (TC003.test_get_specific_rfp_by_id some_repr (three_replies 201 rfp7 200 rfp7 404) start)
    (TC003.test_get_specific_rfp_by_id some_repr
       (other_uuids (three_replies 201 rfp7 200 rfp7 404)) start) /\
  sent (snd (TC003.test_get_specific_rfp_by_id some_repr
               (three_replies 201 rfp7 200 rfp7 404) start)) <>
  sent (snd (TC003.test_get_specific_rfp_by_id some_repr
               (other_uuids (three_replies 201 rfp7 200 rfp7 404)) start)).
Proof.
  split.
  - apply (proj2 runs_are_deterministic some_repr
             (three_replies 201 rfp7 200 rfp7 404)
             (other_uuids (three_replies 201 rfp7 200 rfp7 404))).
    intros n. reflexivity.
  - vm_compute. discriminate.
Defined.

(** ** Proposal generation (TC006) and the documents script (TC004) *)

Section Cleanup.
Variable py_repr : json -> string.

Lemma proposal_step1 (E : Env) :
  after_step1 (snd ((TC006.prologue ;; TC006.step1_create_rfp) E start)).
Proof.
  unfold after_step1, TC006.prologue, TC006.step1_create_rfp, post_rfp_request.
  unfold_script. split_run.
  all: eexists; split; reflexivity.
Qed.

Lemma proposal_step2 (E : Env) (w : World) :
  after_step1 w -> profile_frame E (snd (TC006.step2_company_profile E w)).
Proof.
  intros (v & Hs & Hl). destruct w as [s d o l]. cbn in Hs, Hl. subst s l.
  unfold profile_frame, listed_profiles, created_profile, TC006.step2_company_profile,
    create_profile_request, post_rfp_request.
  unfold_script. split_run.
  all: try match goal with
           | H : _ && false = true |- _ => rewrite andb_false_r in H; discriminate
           end.
  all: repeat split.
  all: try solve [eexists; reflexivity].
  all: try solve [repeat constructor; discriminate].
  all: try solve [intros; unpack; cbn in *; congruence].
  all: try solve
    [ eexists; split; [reflexivity|]; intros Hn Ht;
      first
        [ now cbn in Ht
        | now elim Hn
        | split;
          [ eexists; split; [eexists; split; reflexivity | intros; discriminate]
          | split;
            [ do 2 eexists; repeat split; first [reflexivity | eassumption]
            | reflexivity ] ] ] ].
Qed.

Lemma proposal_step3 (E : Env) (w : World) :
  let run := TC006.step3_generate_proposal E w in
  locals (snd run) = locals w /\
  exists l, sent (snd run) = (sent w ++ l)%list /\
    Forall (fun r => req_method r <> DELETE) l.
Proof.
  unfold TC006.step3_generate_proposal, TC006.expected_status.
  unfold_script. split_run.
  all: split; [reflexivity|].
  all: first [ exists []; split; [now rewrite app_nil_r | constructor]
             | eexists; split; [reflexivity | repeat constructor; discriminate] ].
Qed.

End Cleanup.

(** *** The frame of the run and what the clean-up adds to it *)

Section Frame.
Variable py_repr : json -> string.

Lemma after_step1_frame (E : Env) (w : World) : after_step1 w -> profile_frame E w.
Proof.
  intros (v & Hs & Hl). unfold profile_frame. rewrite Hs, Hl. cbn.
  split; [now exists v|]. split; [|split].
  - exists JNull. split; [reflexivity|]. intros H. now elim H.
  - reflexivity.
  - repeat constructor. discriminate.
Qed.

Lemma frame_step3 (E : Env) (w : World) :
  profile_frame E w -> profile_frame E (snd (TC006.step3_generate_proposal E w)).
Proof.
  intros (Hv & (c & Hc & Hown) & Hreuse & Hdel).
  destruct (proposal_step3 E w) as (Hl & l & Hs & Hnd).
  unfold profile_frame. rewrite Hl, Hs.
  split; [exact Hv|]. split; [|split; [exact Hreuse|]].
  - exists c. split; [exact Hc|]. intros Hn Ht.
    destruct (Hown Hn Ht) as (Hp & Hcr & H2). split; [exact Hp|]. split; [exact Hcr|].
    rewrite nth_error_app1; [exact H2|]. apply nth_error_Some. now rewrite H2.
  - apply Forall_app. now split.
Qed.

Lemma frame_main (E : Env) :
  profile_frame E (snd ((TC006.prologue ;; TC006.main) E start)).
Proof.
  pose proof (proposal_step1 E) as H1.
  unfold TC006.main. unfold bind in *.
  destruct (TC006.prologue E start) as [[[]|e0] w0]; cbn in *.
  2:{ now apply after_step1_frame. }
  destruct (TC006.step1_create_rfp E w0) as [[[]|e1] w1]; cbn in *.
  2:{ now apply after_step1_frame. }
  pose proof (proposal_step2 E w1 H1) as H2.
  destruct (TC006.step2_company_profile E w1) as [[[]|e2] w2]; cbn in *.
  2:{ exact H2. }
  apply (frame_step3 E w2 H2).
Qed.

(** The clean-up cannot raise: it returns having sent at most the two
    DELETEs, and records no assertion outcome. *)
Lemma cleanup_run (E : Env) (w : World) (v c : json) :
  dict_lookup "rfp_id" (locals w) = Some v ->
  dict_lookup "company_profile_id" (locals w) = Some c ->
  exists w', TC006.cleanup py_repr E w = (Ok tt, w') /\
    outcomes w' = outcomes w /\
    sent w' =
      (sent w
       ++ (if truthy v then [delete_rfp_request (py_str py_repr v)] else [])
       ++ (if truthy c && match dict_lookup "new_profile_payload" (locals w) with
                          | Some _ => true | None => false end
           then [delete_company_request (py_str py_repr c)] else []))%list.
Proof.
  intros Hv Hc.
  unfold TC006.cleanup, TC006.cleanup_rfp, TC006.cleanup_company,
    delete_rfp_request, delete_company_request.
  unfold_script. cbn. rewrite Hv. cbn.
  destruct (truthy v); cbn; [destruct (reply E _); cbn|]; rewrite Hc; cbn;
    (destruct (truthy c); cbn;
     [destruct (dict_lookup "new_profile_payload" (locals w)); cbn;
      [destruct (reply E _); cbn|]|]);
    eexists; (split; [reflexivity|]); (split; [reflexivity|]);
    cbn; rewrite <- ?app_assoc, ?app_nil_r; reflexivity.
Qed.

(** The whole run: the body of the [try] from the prologue's world, then
    the clean-up, which leaves the outcome of the body as it is. *)
Lemma proposal_run_shape (E : Env) :
  let body := (TC006.prologue ;; TC006.main) E start in
  let run := TC006.test_enhanced_ai_powered_proposal_generation py_repr E start in
  exists v c,
    dict_lookup "rfp_id" (locals (snd body)) = Some v /\
    dict_lookup "company_profile_id" (locals (snd body)) = Some c /\
    fst run = fst body /\
    outcomes (snd run) = outcomes (snd body) /\
    sent (snd run) =
      (sent (snd body)
       ++ (if truthy v then [delete_rfp_request (py_str py_repr v)] else [])
       ++ (if truthy c && match dict_lookup "new_profile_payload" (locals (snd body)) with
                          | Some _ => true | None => false end
           then [delete_company_request (py_str py_repr c)] else []))%list.
Proof.
  intros body run. pose proof (frame_main E) as HF. fold body in HF.
  subst body run. unfold TC006.test_enhanced_ai_powered_proposal_generation.
  cbv beta delta [bind try_finally] in *.
  change (TC006.prologue E start) with
    (@Ok unit tt,
     mkWorld [] 0%nat [] [("rfp_id", JNull); ("company_profile_id", JNull)]) in *.
  cbv beta iota in *.
  destruct (TC006.main E _) as [r w1]. cbn [fst snd] in *.
  destruct HF as ((v & Hv) & (c & Hc & _) & _).
  destruct (cleanup_run E w1 v c Hv Hc) as (w' & -> & Ho & Hs).
  exists v, c. cbn [fst snd]. now repeat split.
Qed.



End Frame.



(** *** Clean-up and verdict *)

Section Verdict.
Variable py_repr : json -> string.

Lemma documents_cleanup_run (E : Env) (w : World) (v : json) :
  dict_lookup "rfp_id" (locals w) = Some v ->
  exists w', TC004.cleanup py_repr E w = (Ok tt, w') /\ outcomes w' = outcomes w.
Proof.
  intros Hv. unfold TC004.cleanup. unfold_script. cbn. rewrite Hv. cbn.
  destruct (truthy v); cbn; [destruct (reply E _); cbn|];
    eexists; split; reflexivity.
Qed.

Lemma documents_run_shape (E : Env) :
  let body := (TC004.prologue ;; TC004.main py_repr) E start in
  let run := TC004.test_get_documents_for_specific_rfp py_repr E start in
  fst run = fst body /\ outcomes (snd run) = outcomes (snd body).
Proof.
  unfold TC004.test_get_documents_for_specific_rfp, TC004.prologue, TC004.main,
    TC004.cleanup.
  unfold_script. split_run.
  all: split; reflexivity.
Qed.

(** C8. In the documents script and in the proposal-generation script the
    clean-up of the [finally] block never raises, whatever the DELETE
    endpoint answers and also when it cannot be reached, and records no
    assertion outcome: the run ends exactly as the body of the [try] ended,
    with the same sequence of assertion outcomes. *)
Theorem cleanup_never_changes_the_verdict (E : Env) :
  (forall (w : World) (v : json),
     dict_lookup "rfp_id" (locals w) = Some v ->
     fst (TC004.cleanup py_repr E w) = Ok tt) /\
  (forall (w : World) (v c : json),
     dict_lookup "rfp_id" (locals w) = Some v ->
     dict_lookup "company_profile_id" (locals w) = Some c ->
     fst (TC006.cleanup py_repr E w) = Ok tt) /\
  (let body := (TC004.prologue ;; TC004.main py_repr) E start in
   let run := TC004.test_get_documents_for_specific_rfp py_repr E start in
   fst run = fst body /\ outcomes (snd run) = outcomes (snd body)) /\
  (let body := (TC006.prologue ;; TC006.main) E start in
   let run := TC006.test_enhanced_ai_powered_proposal_generation py_repr E start in
   fst run = fst body /\ outcomes (snd run) = outcomes (snd body)).
Proof.
  split; [|split; [|split]].
  - intros w v Hv. now destruct (documents_cleanup_run E w v Hv) as (w' & -> & _).
  - intros w v c Hv Hc. now destruct (cleanup_run py_repr E w v c Hv Hc) as (w' & -> & _).
  - apply documents_run_shape.
  - destruct (proposal_run_shape py_repr E) as (v & c & _ & _ & Hr & Ho & _).
    now split.
Qed.

End Verdict.

Lemma cleanup_never_changes_the_verdict_witness :
  fst (TC004.cleanup some_repr documents_env
         (mkWorld [] 0%nat [] [("rfp_id", JStr "rfp-1")])) = Ok tt /\
  overall (TC004.test_get_documents_for_specific_rfp some_repr documents_env start)
    = Passed.
Proof.
  split.
  - apply (proj1 (cleanup_never_changes_the_verdict some_repr documents_env)
             (mkWorld [] 0%nat [] [("rfp_id", JStr "rfp-1")]) (JStr "rfp-1")).
    reflexivity.
  - reflexivity.
Defined.

(** ** The browser scripts *)

Import Browser.











Lemma bind_assoc {E W A B C} (m : Prog E W A) (k : A -> Prog E W B)
    (h : B -> Prog E W C) (env : E) (w : W) :
  bind (bind m k) h env w = bind m (fun x => bind (k x) h) env w.
Proof. unfold bind. now destruct (m env w) as [[a|e] w']. Qed.

Lemma bind_ext {E W A B} (m : Prog E W A) (k1 k2 : A -> Prog E W B) (env : E) (w : W) :
  (forall a env' w', k1 a env' w' = k2 a env' w') -> bind m k1 env w = bind m k2 env w.
Proof. intros H. unfold bind. destruct (m env w) as [[a|e] w']; [apply H | reflexivity]. Qed.





(** ** How failures surface *)

Import Browser.




(** ** The status expected of proposal generation *)





(** * Further properties *)

(** ** The documents script (TC004) *)

Section Documents.
Variable py_repr : json -> string.

Ltac unfold_documents :=
  unfold TC004.test_get_documents_for_specific_rfp, TC004.prologue, TC004.main,
    TC004.cleanup, documents_post_request, documents_get_request,
    documents_delete_request, created_id, listed_documents;
  unfold_script.

Lemma documents_run (E : Env) :
  let run := TC004.test_get_documents_for_specific_rfp py_repr E start in
  (overall run = Passed <-> (exists id, created_id E id) /\ listed_documents E) /\
  (forall id, created_id E id ->
     sent (snd run) =
       ([documents_post_request; documents_get_request (py_str py_repr id)]
        ++ (if truthy id then [documents_delete_request (py_str py_repr id)] else []))%list) /\
  ((forall id, ~ created_id E id) -> sent (snd run) = [documents_post_request]).
Proof.
  unfold_documents. split_run.
  all: repeat split; try reflexivity; try discriminate.
  all: try solve [settle].
  all: try solve
    [ intros; unpack; cbn in *;
      repeat match goal with
             | H : truthy ?x = _ |- context [truthy ?x] => rewrite H
             end; reflexivity ].
  all: try solve
    [ intros H; exfalso; eapply H; do 2 eexists; repeat split;
      first [reflexivity | eassumption] ].
  all: try solve
    [ intros; unpack; cbn in *;
      match goal with
      | H : isinstance_list ?j = _ |- _ => destruct j; try discriminate
      end;
      first [ congruence | do 2 eexists; repeat split; reflexivity ] ].
Qed.

(** X1. The documents script passes exactly when its POST was answered 201
    with an object carrying [id] and its GET of the documents was answered
    200 with a JSON list; the entries of the list are never looked at, and
    the empty list passes. *)
Theorem documents_passes_iff (E : Env) :
  overall (TC004.test_get_documents_for_specific_rfp py_repr E start) = Passed <->
  (exists id, created_id E id) /\ listed_documents E.
Proof. apply (documents_run E). Qed.

(** X2. Whenever the POST of the documents script yields an id, the run
    sends the GET for the documents of that id and then, if the id is truthy,
    one DELETE of /api/rfps/<id>, also when the GET or a later check fails;
    an id that is falsy (null, 0, the empty string) is never deleted.  When
    the POST yields no id, the POST is the only request of the run. *)
Theorem documents_cleanup_follows_creation (E : Env) :
  let run := TC004.test_get_documents_for_specific_rfp py_repr E start in
  (forall id, created_id E id ->
     sent (snd run) =
       ([documents_post_request; documents_get_request (py_str py_repr id)]
        ++ (if truthy id then [documents_delete_request (py_str py_repr id)] else []))%list) /\
  ((forall id, ~ created_id E id) -> sent (snd run) = [documents_post_request]).
Proof. apply (documents_run E). Qed.

End Documents.

Lemma documents_passes_iff_witness :
  overall (TC004.test_get_documents_for_specific_rfp some_repr
             (two_replies 201 rfp7 200 (JList [])) start) = Passed.
Proof.
  apply (proj2 (documents_passes_iff some_repr (two_replies 201 rfp7 200 (JList [])))).
  split.
  - exists (JStr "rfp-7"), (mkResponse 201 (Some rfp7)),
      [("id", JStr "rfp-7"); ("title", JStr "Test RFP u1")].
    repeat split; reflexivity.
  - exists (mkResponse 200 (Some (JList []))), []. repeat split; reflexivity.
Defined.

Lemma documents_cleanup_follows_creation_witness :
  sent (snd (TC004.test_get_documents_for_specific_rfp some_repr
               (two_replies 201 rfp7 500 JNull) start)) =
  [documents_post_request; documents_get_request "rfp-7";
   documents_delete_request "rfp-7"] /\
  sent (snd (TC004.test_get_documents_for_specific_rfp some_repr
               (two_replies 201 (JObj [("id", JInt 0)]) 200 (JList [])) start)) =
  [documents_post_request; documents_get_request "0"].
Proof.
  split.
  - apply (proj1 (documents_cleanup_follows_creation some_repr
                    (two_replies 201 rfp7 500 JNull)) (JStr "rfp-7")).
    exists (mkResponse 201 (Some rfp7)),
      [("id", JStr "rfp-7"); ("title", JStr "Test RFP u1")].
    repeat split; reflexivity.
  - apply (proj1 (documents_cleanup_follows_creation some_repr
                    (two_replies 201 (JObj [("id", JInt 0)]) 200 (JList []))) (JInt 0)).
    exists (mkResponse 201 (Some (JObj [("id", JInt 0)]))), [("id", JInt 0)].
    repeat split; reflexivity.
Defined.

(** ** More on proposal generation (TC006) *)

Section ProposalSteps.
Variable py_repr : json -> string.


Lemma proposal_step1_detail (E : Env) :
  let r := (TC006.prologue ;; TC006.step1_create_rfp) E start in
  after_step1_holding E (snd r) /\
  (fst r = Ok tt <-> exists id, created_rfp E id).
Proof.
  unfold after_step1_holding, created_rfp, created_id, TC006.prologue,
    TC006.step1_create_rfp, post_rfp_request.
  unfold_script. split_run.
  all: split; [eexists; split; [reflexivity|]; split; [reflexivity|]; split|].
  all: try solve [settle].
  all: try solve [split; settle].
  all: try solve
    [ intros H; exfalso; eapply H; do 2 eexists; repeat split;
      first [reflexivity | eassumption] ].
Qed.

Lemma proposal_step2_detail (E : Env) (w : World) :
  after_step1_holding E w ->
  let r := TC006.step2_company_profile E w in
  dict_lookup "rfp_id" (locals (snd r)) = dict_lookup "rfp_id" (locals w) /\
  (In create_profile_request (sent (snd r)) <-> no_profile_listed E) /\
  (exists l, sent (snd r) = post_rfp_request :: get_company_request :: l /\
     (l = [] \/ l = [create_profile_request])).
Proof.
  intros (v & Hs & Hl & _). destruct w as [s d o l]. cbn in Hs, Hl. subst s l.
  unfold no_profile_listed, TC006.step2_company_profile,
    create_profile_request, post_rfp_request, get_company_request.
  unfold_script. split_run.
  all: try match goal with
           | H : _ && false = true |- _ => rewrite andb_false_r in H; discriminate
           end.
  all: split; [reflexivity|]; split;
    [| eexists; split; [reflexivity | first [now left | now right]]].
  all: try solve
    [ split; intros _;
      [ do 2 eexists; repeat split; try reflexivity; intros; discriminate
      | right; right; left; reflexivity ] ].
  all: try solve
    [ split;
      [ intros [H|[H|[]]]; discriminate H
      | intros; unpack; cbn in *;
        first [ congruence
              | match goal with
                | H : forall p ps, _ <> _ |- _ => now elim (H _ _ eq_refl)
                end ] ] ].
Qed.

Lemma nonempty_str_check (x : json) :
  truthy x && isinstance_str x &&
  match x with JStr s => 0 <? Z.of_nat (String.length s) | _ => false end = true <->
  exists s, x = JStr s /\ s <> "".
Proof.
  destruct x as [| | | |s| |]; cbn;
    try (rewrite ?andb_false_r; split; [discriminate | now intros (s' & [=] & _)]).
  destruct s as [|c s]; cbn.
  - split; [discriminate | intros (s' & [= <-] & H); now elim H].
  - split; [intros _; eexists; split; [reflexivity | discriminate] | reflexivity].
Qed.

Lemma proposal_step3_detail (E : Env) (w : World) (v c : json) :
  dict_lookup "rfp_id" (locals w) = Some v ->
  dict_lookup "company_profile_id" (locals w) = Some c ->
  let r := TC006.step3_generate_proposal E w in
  sent (snd r) = (sent w ++ [generate_request v c])%list /\
  (fst r = Ok tt <->
   exists resp d s, reply E (List.length (sent w)) = Responded resp /\
     status_code resp = 200 /\ json_body resp = Some (JObj d) /\
     session_id_of d = JStr s /\ s <> "").
Proof.
  intros Hv Hc. unfold TC006.step3_generate_proposal, TC006.expected_status,
    generate_request.
  unfold_script. cbn. rewrite Hv. cbn. rewrite Hc. cbn.
  destruct (reply E (List.length (sent w))) as [[st body]|] eqn:HE; cbn.
  2:{ split; [reflexivity|]. split; [discriminate | intros (? & ? & ? & [=] & _)]. }
  destruct (Z.eqb_spec st 200) as [->|Hst]; cbn.
  2:{ split; [reflexivity|]. split; [discriminate|].
      intros (? & ? & ? & [= <-] & H & _). now cbn in H. }
  destruct body as [j|]; cbn.
  2:{ split; [reflexivity|]. split; [discriminate|].
      intros (? & ? & ? & [= <-] & _ & [=] & _). }
  destruct j; cbn;
    try (split; [reflexivity|]; split; [discriminate|];
         intros (? & ? & ? & [= <-] & _ & [=] & _)).
  replace (if truthy match dict_lookup "sessionId" d with Some x => x | None => JNull end
           then _ else _)
    with (fun (_ : Env) (w0 : World) => (@Ok json (session_id_of d), w0)).
  2:{ unfold session_id_of. now destruct (truthy _). }
  cbn. pose proof (nonempty_str_check (session_id_of d)) as Hchk.
  destruct (truthy (session_id_of d) && _ && _); cbn; (split; [reflexivity|]).
  - split; [intros _ | reflexivity].
    destruct (proj1 Hchk eq_refl) as (s & Hs & Hne). now exists (mkResponse 200 (Some (JObj d))), d, s.
  - split; [discriminate | intros (resp & d' & s & [= <-] & _ & [= <-] & Hs & Hne)].
    enough (false = true) by discriminate. apply Hchk. now exists s.
Qed.

Lemma after_step1_holding_forgets (E : Env) (w : World) :
  after_step1_holding E w -> after_step1 w.
Proof. intros (v & Hs & Hl & _). now exists v. Qed.

Lemma create_profile_is_not_post_rfp : post_rfp_request <> create_profile_request.
Proof. discriminate. Qed.

Lemma stopped_in_step1 (E : Env) (w : World) (v : json) (r : Result unit) :
  sent w = [post_rfp_request] ->
  locals w = [("rfp_id", v); ("company_profile_id", JNull)] ->
  (forall id, created_id E id -> v = id) ->
  ((forall id, ~ created_id E id) -> v = JNull) ->
  ~ (exists id, created_rfp E id) ->
  exists v c,
    dict_lookup "rfp_id" (locals w) = Some v /\
    dict_lookup "company_profile_id" (locals w) = Some c /\
    (forall id, created_id E id -> v = id) /\
    ((forall id, ~ created_id E id) -> v = JNull) /\
    ((forall id, ~ created_rfp E id) -> c = JNull) /\
    (In create_profile_request (sent w) <->
     (exists id, created_rfp E id) /\ no_profile_listed E).
Proof.
  intros Hs Hl Hv1 Hv2 Hno. exists v, JNull. rewrite Hs, Hl. cbn.
  split; [reflexivity|]. split; [reflexivity|]. split; [exact Hv1|].
  split; [exact Hv2|]. split; [reflexivity|]. split.
  - intros [H|[]]. now elim create_profile_is_not_post_rfp.
  - intros [H _]. now elim Hno.
Qed.

Lemma proposal_body_detail (E : Env) :
  let body := (TC006.prologue ;; TC006.main) E start in
  exists v c,
    dict_lookup "rfp_id" (locals (snd body)) = Some v /\
    dict_lookup "company_profile_id" (locals (snd body)) = Some c /\
    (forall id, created_id E id -> v = id) /\
    ((forall id, ~ created_id E id) -> v = JNull) /\
    ((forall id, ~ created_rfp E id) -> c = JNull) /\
    (In create_profile_request (sent (snd body)) <->
     (exists id, created_rfp E id) /\ no_profile_listed E).
Proof.
  destruct (proposal_step1_detail E) as (H1 & Hok1).
  unfold TC006.main. unfold bind in *.
  destruct (TC006.prologue E start) as [[[]|e0] w0]; cbn in *.
  2:{ destruct H1 as (v & Hs & Hl & Hv1 & Hv2).
      apply (stopped_in_step1 E w0 v (Raise e0)); trivial.
      intros H. apply Hok1 in H. discriminate H. }
  destruct (TC006.step1_create_rfp E w0) as [[[]|e1] w1]; cbn in *.
  2:{ destruct H1 as (v & Hs & Hl & Hv1 & Hv2).
      apply (stopped_in_step1 E w1 v (Raise e1)); trivial.
      intros H. apply Hok1 in H. discriminate H. }
  assert (Hcr : exists id, created_rfp E id) by now apply Hok1.
  destruct (proposal_step2_detail E w1 H1) as (Hrfp & Hin & l & Hs2 & Hl2).
  pose proof (proposal_step2 E w1 (after_step1_holding_forgets E w1 H1)) as HF.
  destruct H1 as (v & Hs & Hl & Hv1 & Hv2).
  rewrite Hl in Hrfp. cbn in Hrfp.
  destruct HF as (_ & (c & Hc & _) & _).
  assert (Hcn : (forall id, ~ created_rfp E id) -> c = JNull).
  { intros Hno. destruct Hcr as [id Hid]. now elim (Hno id). }
  destruct (TC006.step2_company_profile E w1) as [[[]|e2] w2]; cbn in *.
  2:{ exists v, c. split; [exact Hrfp|]. split; [exact Hc|]. split; [exact Hv1|].
      split; [exact Hv2|]. split; [exact Hcn|]. rewrite Hin. tauto. }
  destruct (proposal_step3_detail E w2 v c Hrfp Hc) as (Hs3 & _).
  destruct (proposal_step3 E w2) as (Hl3 & _).
  exists v, c. rewrite Hl3, Hs3.
  split; [exact Hrfp|]. split; [exact Hc|]. split; [exact Hv1|].
  split; [exact Hv2|]. split; [exact Hcn|]. rewrite <- Hin. split.
  - intros H. split; [exact Hcr|]. apply in_app_or in H as [H|[H|[]]]; [exact H|].
    discriminate H.
  - intros [_ H]. apply in_or_app. now left.
Qed.


(** X6. The proposal-generation script creates a company profile of its
    own exactly when step 1 went through and GET /api/company was answered
    200 with a JSON body that is not a non-empty list. *)
Theorem profile_created_iff (E : Env) :
  In create_profile_request
     (sent (snd (TC006.test_enhanced_ai_powered_proposal_generation py_repr E start))) <->
  (exists id, created_rfp E id) /\ no_profile_listed E.
Proof.
  destruct (proposal_run_shape py_repr E) as (v & c & _ & _ & _ & _ & Hs).
  destruct (proposal_body_detail E) as (_ & _ & _ & _ & _ & _ & _ & Hin).
  rewrite Hs, <- Hin. split.
  - intros H. apply in_app_or in H as [H|H]; [exact H|].
    apply in_app_or in H as [H|H];
      [destruct (truthy v) | destruct (_ && _)]; try contradiction;
      destruct H as [H|[]]; discriminate H.
  - intros H. apply in_or_app. now left.
Qed.

(** X4. Step 3 of the proposal-generation script always sends its POST,
    whose body carries [rfpId] and, exactly when the profile id is truthy,
    [companyProfileId].  The step passes exactly when the reply is 200 with
    an object whose [sessionId], or [session_id] when [sessionId] is absent
    or falsy, is a non-empty string; a truthy [sessionId] that is not a
    string fails the step whatever [session_id] holds. *)
Theorem generate_step_accepts_session_id (E : Env) (w : World) (v c : json) :
  dict_lookup "rfp_id" (locals w) = Some v ->
  dict_lookup "company_profile_id" (locals w) = Some c ->
  let r := TC006.step3_generate_proposal E w in
  sent (snd r) = (sent w ++ [generate_request v c])%list /\
  (fst r = Ok tt <->
   exists resp d s, reply E (List.length (sent w)) = Responded resp /\
     status_code resp = 200 /\ json_body resp = Some (JObj d) /\
     session_id_of d = JStr s /\ s <> "") /\
  (forall resp d x,
     reply E (List.length (sent w)) = Responded resp ->
     json_body resp = Some (JObj d) ->
     dict_lookup "sessionId" d = Some x -> truthy x = true -> isinstance_str x = false ->
     fst r <> Ok tt).
Proof.
  intros Hv Hc r. destruct (proposal_step3_detail E w v c Hv Hc) as (Hs & Hok).
  fold r in Hs, Hok. split; [exact Hs|]. split; [exact Hok|].
  intros resp d x Hr Hb Hx Ht Hi H. apply Hok in H as (resp' & d' & s & Hr' & _ & Hb' & Hs' & _).
  rewrite Hr in Hr'. injection Hr' as <-. rewrite Hb in Hb'. injection Hb' as <-.
  unfold session_id_of in Hs'. rewrite Hx, Ht in Hs'. subst x. discriminate Hi.
Qed.

End ProposalSteps.


Lemma profile_created_iff_witness :
  In create_profile_request
     (sent (snd (TC006.test_enhanced_ai_powered_proposal_generation some_repr
                   object_listing_env start))).
Proof.
  apply (proj2 (profile_created_iff some_repr object_listing_env)). split.
  - exists (JStr "rfp-1"). split; [|reflexivity].
    exists (mkResponse 201 (Some (JObj [("id", JStr "rfp-1")]))), [("id", JStr "rfp-1")].
    repeat split; reflexivity.
  - exists (mkResponse 200 (Some (JObj [("id", JStr "existing")]))),
      (JObj [("id", JStr "existing")]).
    repeat split; try reflexivity. intros p ps. discriminate.
Defined.

Lemma generate_step_accepts_session_id_witness :
  fst (TC006.step3_generate_proposal
         (mkEnv (fun _ => Responded (mkResponse 200
                   (Some (JObj [("sessionId", JInt 7); ("session_id", JStr "abc")]))))
                (fun _ => ""))
         (mkWorld [] 0%nat [] [("rfp_id", JStr "rfp-1"); ("company_profile_id", JNull)]))
    <> Ok tt.
Proof.
  apply (proj2 (proj2 (generate_step_accepts_session_id
           (mkEnv (fun _ => Responded (mkResponse 200
                     (Some (JObj [("sessionId", JInt 7); ("session_id", JStr "abc")]))))
                  (fun _ => ""))
           (mkWorld [] 0%nat [] [("rfp_id", JStr "rfp-1"); ("company_profile_id", JNull)])
           (JStr "rfp-1") JNull eq_refl eq_refl))
           (mkResponse 200 (Some (JObj [("sessionId", JInt 7); ("session_id", JStr "abc")])))
           [("sessionId", JInt 7); ("session_id", JStr "abc")] (JInt 7)
           eq_refl eq_refl eq_refl eq_refl eq_refl).
Defined.

(** ** More on the get-by-id script (TC003) and the health check (TC010) *)

Lemma http_error_range (st : Z) :
  (400 <=? st) && (st <? 600) = true <-> 400 <= st < 600.
Proof. rewrite andb_true_iff, Z.leb_le, Z.ltb_lt. tauto. Qed.

(** X5. How [create_rfp] fails.  It raises RequestException when the target
    cannot be reached, HTTPError on a status from 400 to 599 (the status
    assertion is never reached), AssertionError on any other status than 201,
    JSONDecodeError on a 201 without a JSON body, AssertionError on a 201
    object without [id], and on a 201 whose body is not an object TypeError,
    unless it is a string or list that does not contain ["id"], when the
    assertion fails. *)
Theorem create_rfp_failure_modes (E : Env) (w : World) :
  let r := fst (TC003.create_rfp E w) in
  (reply E (List.length (sent w)) = Unreachable -> r = Raise RequestException) /\
  (forall resp, reply E (List.length (sent w)) = Responded resp ->
     (400 <= status_code resp < 600 -> r = Raise HTTPError) /\
     (~ 400 <= status_code resp < 600 -> status_code resp <> 201 ->
      r = Raise AssertionError) /\
     (status_code resp = 201 -> json_body resp = None -> r = Raise JSONDecodeError) /\
     (status_code resp = 201 -> forall d, json_body resp = Some (JObj d) ->
      dict_lookup "id" d = None -> r = Raise AssertionError) /\
     (status_code resp = 201 -> forall j, json_body resp = Some j ->
      isinstance_dict j = false -> r = Raise (non_object_raises j))).
Proof.
  unfold TC003.create_rfp. unfold_script. cbn.
  destruct (reply E (List.length (sent w))) as [[st body]|] eqn:HE; cbn.
  2:{ split; [reflexivity | intros resp [=]]. }
  split; [discriminate|]. intros resp [= <-]. cbn.
  destruct ((400 <=? st) && (st <? 600)) eqn:Hrange; cbn.
  { apply http_error_range in Hrange.
    split; [reflexivity|]. split; [tauto|]. repeat split; intros; lia. }
  assert (Hout : ~ 400 <= st < 600).
  { intros H. apply http_error_range in H. congruence. }
  split; [tauto|].
  destruct (Z.eqb_spec st 201) as [->|Hst]; cbn.
  2:{ split; [reflexivity|]. repeat split; intros; contradiction. }
  split; [intros _ H; now elim H|].
  destruct body as [j|]; cbn.
  2:{ split; [now intros|]. split; intros; congruence. }
  split; [discriminate|].
  destruct j; cbn; (split; [intros _ d' [=]|]); try (intros _ j' [= <-] _; reflexivity).
  - intros _ j' [= <-] _. unfold non_object_raises.
    now destruct (str_contains "id" s).
  - intros _ j' [= <-] _. unfold non_object_raises.
    now destruct (existsb _ l).
  - subst. intros Hn. destruct (dict_lookup "id" d'); [discriminate Hn | reflexivity].
  - intros _ j' [= <-]. discriminate.
Qed.

Lemma create_rfp_failure_modes_witness :
  fst (TC003.create_rfp (three_replies 201 (JStr "valid") 200 rfp7 404) start)
    = Raise TypeError.
Proof.
  apply (proj2 (proj2 (proj2 (proj2 (proj2
           (create_rfp_failure_modes (three_replies 201 (JStr "valid") 200 rfp7 404) start)
           (mkResponse 201 (Some (JStr "valid"))) eq_refl))))
           eq_refl (JStr "valid") eq_refl eq_refl).
Defined.

Section GetByIdMore.
Variable py_repr : json -> string.

Lemma get_by_id_sequence (E : Env) :
  let run := TC003.test_get_specific_rfp_by_id py_repr E start in
  overall run = Passed ->
  exists id, created_id E id /\
    sent (snd run) =
      [create_request (uuid4 E 0) (uuid4 E 1);
       get_rfp_request (py_str py_repr id);
       get_rfp_request ("nonexistent-" ++ uuid4 E 2)] /\
    drawn (snd run) = 3%nat.
Proof.
  unfold created_id, TC003.test_get_specific_rfp_by_id, TC003.step_get_by_id,
    TC003.step_not_found, TC003.create_rfp, TC003.delete_rfp,
    create_request, get_rfp_request.
  unfold_script. split_run.
  all: try discriminate.
  all: intros _; eexists; split;
    [do 2 eexists; repeat split; first [reflexivity | eassumption]
    | split; reflexivity].
Qed.

(** X7. The get-by-id script passes exactly when its POST was answered 201
    with an object carrying [id], the GET of that id was answered 200 with an
    object whose [id] equals it, and the GET of the non-existent id was
    answered 404.  A passing run has sent exactly these three requests, in
    this order, and has drawn three uuids: two for the created RFP and one
    for the non-existent id. *)
Theorem get_by_id_passes_iff (E : Env) :
  let run := TC003.test_get_specific_rfp_by_id py_repr E start in
  (overall run = Passed <->
   exists id r2, created_id E id /\ fetched_id E id /\
     reply E 2 = Responded r2 /\ status_code r2 = 404) /\
  (overall run = Passed ->
   exists id, created_id E id /\
     sent (snd run) =
       [create_request (uuid4 E 0) (uuid4 E 1);
        get_rfp_request (py_str py_repr id);
        get_rfp_request ("nonexistent-" ++ uuid4 E 2)] /\
     drawn (snd run) = 3%nat).
Proof.
  split; [apply (get_by_id_run py_repr E) | apply get_by_id_sequence].
Qed.

End GetByIdMore.

Lemma get_by_id_passes_iff_witness :
  exists id, created_id (three_replies 201 rfp7 200 rfp7 404) id /\
    sent (snd (TC003.test_get_specific_rfp_by_id some_repr
                 (three_replies 201 rfp7 200 rfp7 404) start)) =
      [create_request "u0" "u1"; get_rfp_request (py_str some_repr id);
       get_rfp_request "nonexistent-u2"] /\
    drawn (snd (TC003.test_get_specific_rfp_by_id some_repr
                  (three_replies 201 rfp7 200 rfp7 404) start)) = 3%nat.
Proof.
  apply (proj2 (get_by_id_passes_iff some_repr (three_replies 201 rfp7 200 rfp7 404))).
  reflexivity.
Defined.



(** ** The further API scripts *)

(** X9. The discovery script sends one POST of /api/discovery without a
    body and passes exactly when the reply has status 201: the body of the
    reply is never read.  Every failure, an unreachable target included,
    leaves the script as an AssertionError. *)
Theorem discovery_passes_iff_201 (E : Env) :
  let run := TC009.test_start_rfp_discovery_workflow E start in
  (overall run = Passed <->
   exists resp, reply E 0 = Responded resp /\ status_code resp = 201) /\
  (forall e, fst run = Raise e -> e = AssertionError) /\
  sent (snd run) = [discovery_request].
Proof.
  unfold TC009.test_start_rfp_discovery_workflow, discovery_request.
  unfold_script. split_run.
  all: repeat split; try reflexivity; try discriminate.
  all: solve [settle | intros e [= <-]; reflexivity].
Qed.

Lemma discovery_passes_iff_201_witness :
  overall (TC009.test_start_rfp_discovery_workflow
             (mkEnv (fun _ => Responded (mkResponse 201 None)) (fun _ => "")) start)
    = Passed.
Proof.
  apply (proj2 (proj1 (discovery_passes_iff_201
           (mkEnv (fun _ => Responded (mkResponse 201 None)) (fun _ => ""))))).
  exists (mkResponse 201 None). split; reflexivity.
Defined.

Lemma create_new_rfp_run (E : Env) :
  let run := TC002.test_create_new_rfp E start in
  (overall run = Passed <-> exists s, created_with_string_id E s) /\
  (reply E 0 = Unreachable -> fst run = Raise RequestException) /\
  (forall resp, reply E 0 = Responded resp -> status_code resp <> 201 ->
     fst run = Raise AssertionError).
Proof.
  unfold TC002.test_create_new_rfp, TC002.has_valid_id, created_with_string_id.
  unfold_script. split_run.
  all: repeat split; try reflexivity; try discriminate.
  all: try solve [settle].
  - intros _. destruct j; try discriminate. exists s, (mkResponse 201 (Some (JObj d))), d.
    repeat split; trivial. intros ->. discriminate.
  - intros (s & r0 & d0 & [= <-] & _ & [= <-] & Hs & Hne).
    rewrite Heqo0 in Hs. injection Hs as ->. cbn in *.
    destruct (String.eqb_spec s ""); [contradiction | discriminate].
Qed.

Lemma create_rfp_returns (E : Env) (w : World) (id : json) :
  fst (TC003.create_rfp E w) = Ok id <->
  exists resp d, reply E (List.length (sent w)) = Responded resp /\
    status_code resp = 201 /\ json_body resp = Some (JObj d) /\
    dict_lookup "id" d = Some id.
Proof.
  unfold TC003.create_rfp. unfold_script. split_run.
  all: split; try discriminate.
  all: try solve [settle].
Qed.

(** X10. The create script passes exactly when its POST is answered 201 with
    an object whose [id] is a non-empty string; any other status fails its
    assertion, while an unreachable target is not caught and leaves the
    script as a RequestException.  It asks more than [create_rfp] of the
    get-by-id script does of the same endpoint: on every reply on which the
    create script passes, [create_rfp] returns that string id. *)
Theorem create_new_rfp_passes_iff (E : Env) :
  let run := TC002.test_create_new_rfp E start in
  (overall run = Passed <-> exists s, created_with_string_id E s) /\
  (reply E 0 = Unreachable -> fst run = Raise RequestException) /\
  (forall resp, reply E 0 = Responded resp -> status_code resp <> 201 ->
     fst run = Raise AssertionError) /\
  (overall run = Passed ->
   forall E', reply E' 0 = reply E 0 ->
     exists s, fst (TC003.create_rfp E' start) = Ok (JStr s) /\ s <> "").
Proof.
  intros run. destruct (create_new_rfp_run E) as (Hok & Hun & Hst). fold run in Hok, Hun, Hst.
  split; [exact Hok|]. split; [exact Hun|]. split; [exact Hst|].
  intros Hp E' HE. apply Hok in Hp as (s & r0 & d & Hr & H201 & Hb & Hid & Hne).
  exists s. split; [|exact Hne]. apply create_rfp_returns.
  exists r0, d. cbn. rewrite HE. now repeat split.
Qed.

Lemma create_new_rfp_passes_iff_witness :
  overall (TC002.test_create_new_rfp (one_reply 201 rfp7) start) = Passed /\
  fst (TC002.test_create_new_rfp unreachable_env start) = Raise RequestException.
Proof.
  split.
  - apply (proj2 (proj1 (create_new_rfp_passes_iff (one_reply 201 rfp7)))).
    exists "rfp-7", (mkResponse 201 (Some rfp7)),
      [("id", JStr "rfp-7"); ("title", JStr "Test RFP u1")].
    repeat split; try reflexivity. discriminate.
  - apply (proj1 (proj2 (create_new_rfp_passes_iff unreachable_env))). reflexivity.
Defined.








(** ** More on the browser scripts *)

Import Browser.

Lemma steady_ret : steady (ret tt) 0.
Proof.
  intros O s. split.
  - intros _. cbn. split; [reflexivity | lia].
  - intros k e Hk. lia.
Qed.

Lemma steady_one (m : B unit) :
  (forall O s,
     awaits (snd (m O s)) = S (awaits s) /\
     (awaited O (awaits s) = None -> fst (m O s) = Ok tt) /\
     (forall e, awaited O (awaits s) = Some e -> fst (m O s) = Raise e)) ->
  steady m 1.
Proof.
  intros H O s. destruct (H O s) as (Ha & Hok & Hex). split.
  - intros Hq. split; [apply Hok, Hq; lia | lia].
  - intros k e Hk _ He. assert (k = awaits s) as -> by lia.
    split; [now apply Hex | exact Ha].
Qed.

Lemma steady_await : steady await 1.
Proof.
  apply steady_one. intros O s. unfold await.
  destruct (awaited O (awaits s)); cbn; repeat split; congruence.
Qed.

Lemma steady_acquire (r : resource) : steady (acquire r) 1.
Proof.
  apply steady_one. intros O s. unfold acquire.
  destruct (awaited O (awaits s)); cbn; repeat split; congruence.
Qed.

Lemma steady_expect_or :
  steady (try_except await is_AssertionError (raise AssertionError)) 1.
Proof.
  apply steady_one. intros O s. unfold try_except, await, raise.
  destruct (awaited O (awaits s)) as [e|]; cbn.
  - destruct e; cbn; repeat split; congruence.
  - repeat split; congruence.
Qed.

Lemma steady_bind (m k : B unit) (n n' : nat) :
  steady m n -> steady k n' -> steady (m ;; k) (n + n').
Proof.
  intros Hm Hk O s. destruct (Hm O s) as (Hmq & Hmf). unfold bind. split.
  - intros Hq. destruct Hmq as (Hok & Ha); [intros j Hj; apply Hq; lia|].
    destruct (m O s) as [[[]|e] s']; cbn in *; [|discriminate].
    destruct (Hk O s') as (Hkq & _).
    destruct Hkq as (Hok' & Ha'); [intros j Hj; apply Hq; lia|].
    split; [exact Hok' | lia].
  - intros k0 e Hk0 Hbefore He.
    destruct (Nat.lt_ge_cases k0 (awaits s + n)) as [Hin|Hout].
    + destruct (Hmf k0 e) as (Hr & Ha); [lia | exact Hbefore | exact He |].
      destruct (m O s) as [[[]|e'] s']; cbn in *; [discriminate|]. now split.
    + destruct Hmq as (Hok & Ha); [intros j Hj; apply Hbefore; lia|].
      destruct (m O s) as [[[]|e'] s']; cbn in *; [|discriminate].
      destruct (Hk O s') as (_ & Hkf).
      apply (Hkf k0 e); [lia | intros j Hj; apply Hbefore; lia | exact He].
Qed.

Lemma steady_perform (a : action) : steady (perform a) (cost a).
Proof.
  destruct a; cbn;
    first [ apply steady_ret | apply steady_await | apply steady_expect_or
          | apply (steady_bind await await 1 1); apply steady_await ].
Qed.

Lemma steady_steps (steps : list action) :
  steady (for_each steps perform) (total_cost steps).
Proof.
  induction steps as [|a steps IH]; cbn.
  - apply steady_ret.
  - apply (steady_bind (perform a) (for_each steps perform) (cost a) (total_cost steps));
      [apply steady_perform | exact IH].
Qed.

(** The wait for a load state, whose Playwright error is swallowed. *)
Lemma load_state_run (O : Oracle) (s : Session) :
  let r := try_except await is_PlaywrightError (ret tt) O s in
  awaits (snd r) = S (awaits s) /\
  (awaited O (awaits s) = None \/ awaited O (awaits s) = Some PlaywrightError ->
   fst r = Ok tt).
Proof.
  unfold try_except, await, ret.
  destruct (awaited O (awaits s)) as [e|]; cbn.
  - destruct e; cbn; (split; [reflexivity|]); intros [H|H]; congruence.
  - split; reflexivity.
Qed.

Lemma load_states_loop (l : list nat) (O : Oracle) (s : Session) :
  (forall j, (awaits s <= j < awaits s + List.length l)%nat ->
     awaited O j = None \/ awaited O j = Some PlaywrightError) ->
  let r := for_each l (fun _ => try_except await is_PlaywrightError (ret tt)) O s in
  fst r = Ok tt /\ awaits (snd r) = (awaits s + List.length l)%nat.
Proof.
  revert s; induction l as [|x l IH]; intros s Hq; cbn.
  - split; [reflexivity | lia].
  - unfold bind. pose proof (load_state_run O s) as Hl; cbv zeta in Hl.
    destruct Hl as (Ha & Hok).
    specialize (Hok (Hq (awaits s) ltac:(cbn; lia))).
    destruct (try_except await is_PlaywrightError (ret tt) O s) as [[[]|e] s'];
      cbn in *; [|discriminate].
    pose proof (IH s') as Hl; cbv zeta in Hl.
    destruct Hl as (Hok' & Ha'); [intros j Hj; apply Hq; cbn; lia|].
    split; [exact Hok' | lia].
Qed.

Lemma load_states_run (O : Oracle) (s : Session) :
  (forall j, (awaits s <= j < awaits s + 1 + frames O)%nat ->
     awaited O j = None \/ awaited O j = Some PlaywrightError) ->
  let r := (try_except await is_PlaywrightError (ret tt) ;;
            fs <- page_frames ;;
            for_each fs (fun _ => try_except await is_PlaywrightError (ret tt))) O s in
  fst r = Ok tt /\ awaits (snd r) = (awaits s + 1 + frames O)%nat.
Proof.
  intros Hq. cbv zeta. unfold bind, page_frames.
  pose proof (load_state_run O s) as Hl; cbv zeta in Hl.
  destruct Hl as (Ha & Hok).
  specialize (Hok (Hq (awaits s) ltac:(lia))).
  destruct (try_except await is_PlaywrightError (ret tt) O s) as [[[]|e] s'];
    cbn [fst snd] in *; [|discriminate].
  pose proof (load_states_loop (seq 0 (frames O)) O s') as Hl; cbv zeta in Hl.
  rewrite length_seq in Hl.
  destruct Hl as (Hok' & Ha').
  - intros j Hj. apply Hq. rewrite Ha in Hj. lia.
  - split; [exact Hok' | lia].
Qed.

(** The five operations every script awaits before any load state. *)
Lemma steady_first_five :
  steady (acquire Playwright ;; acquire Chromium ;; acquire Context ;; await ;; await) 5.
Proof.
  apply (steady_bind _ _ 1 4); [apply steady_acquire|].
  apply (steady_bind _ _ 1 3); [apply steady_acquire|].
  apply (steady_bind _ _ 1 2); [apply steady_acquire|].
  apply (steady_bind _ _ 1 1); apply steady_await.
Qed.

Lemma body_in_three_parts (steps : list action) (O : Oracle) (s : Session) :
  (start_up ;; for_each steps perform) O s =
  ((acquire Playwright ;; acquire Chromium ;; acquire Context ;; await ;; await) ;;
   ((try_except await is_PlaywrightError (ret tt) ;;
     fs <- page_frames ;;
     for_each fs (fun _ => try_except await is_PlaywrightError (ret tt))) ;;
    for_each steps perform)) O s.
Proof.
  unfold start_up, open_page.
  rewrite !bind_assoc. apply bind_ext. intros _ ? ?.
  rewrite !bind_assoc. apply bind_ext. intros _ ? ?.
  rewrite !bind_assoc. apply bind_ext. intros _ ? ?.
  rewrite !bind_assoc. apply bind_ext. intros _ ? ?.
  rewrite !bind_assoc. apply bind_ext. intros _ ? ?.
  reflexivity.
Qed.

Lemma tear_down_keeps_count (O : Oracle) (s : Session) :
  fst (tear_down O s) = Ok tt /\ awaits (snd (tear_down O s)) = awaits s.
Proof. destruct s as [[] [] [] ev aw]; split; reflexivity. Qed.

Lemma run_steps_as_body (steps : list action) (O : Oracle) :
  fst (run_steps steps O fresh) = fst ((start_up ;; for_each steps perform) O fresh) /\
  awaits (snd (run_steps steps O fresh)) =
  awaits (snd ((start_up ;; for_each steps perform) O fresh)).
Proof.
  unfold run_steps, try_finally.
  destruct ((start_up ;; for_each steps perform) O fresh) as [r s].
  destruct (tear_down_keeps_count O s) as (Hok & Ha).
  destruct (tear_down O s) as [[[]|e] s']; cbn in *; [now split | discriminate].
Qed.

Lemma load_state_fails (O : Oracle) (s : Session) (e : exn) :
  awaited O (awaits s) = Some e -> e <> PlaywrightError ->
  fst (try_except await is_PlaywrightError (ret tt) O s) = Raise e.
Proof.
  intros He Hne. unfold try_except, await. rewrite He. cbn.
  destruct e; cbn; congruence.
Qed.

Lemma load_states_loop_fails (l : list nat) (O : Oracle) (s : Session)
    (k : nat) (e : exn) :
  (awaits s <= k < awaits s + List.length l)%nat ->
  (forall j, (awaits s <= j < k)%nat ->
     awaited O j = None \/ awaited O j = Some PlaywrightError) ->
  awaited O k = Some e -> e <> PlaywrightError ->
  let r := for_each l (fun _ => try_except await is_PlaywrightError (ret tt)) O s in
  fst r = Raise e /\ awaits (snd r) = S k.
Proof.
  revert s; induction l as [|x l IH]; intros s Hk Hq He Hne; cbn in Hk |- *; [lia|].
  unfold bind. pose proof (load_state_run O s) as Hl; cbv zeta in Hl.
  destruct Hl as (Ha & Hok).
  destruct (Nat.eq_dec k (awaits s)) as [->|Hlt].
  - pose proof (load_state_fails O s e He Hne) as Hf.
    destruct (try_except await is_PlaywrightError (ret tt) O s) as [[[]|e'] s'];
      cbn in *; [discriminate|]. split; [exact Hf | lia].
  - specialize (Hok (Hq (awaits s) ltac:(lia))).
    destruct (try_except await is_PlaywrightError (ret tt) O s) as [[[]|e'] s'];
      cbn in *; [|discriminate].
    pose proof (IH s') as Hl; cbv zeta in Hl. rewrite Ha in Hl.
    apply Hl; [lia | intros j Hj; apply Hq; lia | exact He | exact Hne].
Qed.

Lemma load_states_fail (O : Oracle) (s : Session) (k : nat) (e : exn) :
  (awaits s <= k < awaits s + 1 + frames O)%nat ->
  (forall j, (awaits s <= j < k)%nat ->
     awaited O j = None \/ awaited O j = Some PlaywrightError) ->
  awaited O k = Some e -> e <> PlaywrightError ->
  let r := (try_except await is_PlaywrightError (ret tt) ;;
            fs <- page_frames ;;
            for_each fs (fun _ => try_except await is_PlaywrightError (ret tt))) O s in
  fst r = Raise e /\ awaits (snd r) = S k.
Proof.
  intros Hk Hq He Hne. cbv zeta. unfold bind, page_frames.
  pose proof (load_state_run O s) as Hl; cbv zeta in Hl.
  destruct Hl as (Ha & Hok).
  destruct (Nat.eq_dec k (awaits s)) as [->|Hlt].
  - pose proof (load_state_fails O s e He Hne) as Hf.
    destruct (try_except await is_PlaywrightError (ret tt) O s) as [[[]|e'] s'];
      cbn [fst snd] in *; [discriminate|]. split; [exact Hf | lia].
  - specialize (Hok (Hq (awaits s) ltac:(lia))).
    destruct (try_except await is_PlaywrightError (ret tt) O s) as [[[]|e'] s'];
      cbn [fst snd] in *; [|discriminate].
    pose proof (load_states_loop_fails (seq 0 (frames O)) O s' k e) as Hl;
      cbv zeta in Hl.
    rewrite length_seq, Ha in Hl.
    apply Hl; [lia | intros j Hj; apply Hq; lia | exact He | exact Hne].
Qed.

Lemma tolerated_window (O : Oracle) (j : nat) :
  awaited O j = None \/ tolerated O j ->
  ((j < 5)%nat \/ (6 + frames O <= j)%nat -> awaited O j = None) /\
  (awaited O j = None \/ awaited O j = Some PlaywrightError).
Proof.
  unfold tolerated. intros [H|((Hlo & Hhi) & H)].
  - split; [intros _; exact H | left; exact H].
  - split; [intros [Hj|Hj]; lia | right; exact H].
Qed.

Lemma bind_after_ok (m k : B unit) (O : Oracle) (s s' : Session) :
  m O s = (Ok tt, s') -> (m ;; k) O s = k O s'.
Proof. intros H. unfold bind. rewrite H. reflexivity. Qed.

Lemma bind_after_raise (m k : B unit) (O : Oracle) (s s' : Session) (e : exn) :
  m O s = (Raise e, s') -> (m ;; k) O s = (Raise e, s').
Proof. intros H. unfold bind. rewrite H. reflexivity. Qed.

(** X13.  A Playwright error raised while the script waits for the load state
    of the page or of one of its frames never fails the run: when every
    awaited operation either completes or is such a tolerated error,
    [run_test] returns normally, after awaiting every operation of the
    script. *)
Theorem load_state_errors_never_fail_the_run (steps : list action) (O : Oracle) :
  (forall j, (j < 6 + frames O + total_cost steps)%nat ->
     awaited O j = None \/ tolerated O j) ->
  fst (run_steps steps O fresh) = Ok tt /\
  awaits (snd (run_steps steps O fresh)) = (6 + frames O + total_cost steps)%nat.
Proof.
  intros Hq. destruct (run_steps_as_body steps O) as (-> & ->).
  rewrite body_in_three_parts.
  destruct (steady_first_five O fresh) as (H5 & _).
  destruct H5 as (Hok & Ha).
  { intros j Hj. cbn in Hj. apply (tolerated_window O j); [apply Hq|]; lia. }
  destruct ((acquire Playwright ;; acquire Chromium ;; acquire Context ;; await ;; await)
              O fresh) as [[[]|e] s5] eqn:E5; cbn [fst snd] in *; [|discriminate].
  cbn in Ha. rewrite (bind_after_ok _ _ _ _ _ E5).
  pose proof (load_states_run O s5) as Hl; cbv zeta in Hl.
  destruct Hl as (Hok' & Ha').
  { intros j Hj. apply (tolerated_window O j). apply Hq. lia. }
  destruct ((try_except await is_PlaywrightError (ret tt) ;;
             fs <- page_frames ;;
             for_each fs (fun _ => try_except await is_PlaywrightError (ret tt))) O s5)
    as [[[]|e] s6] eqn:E6; cbn [fst snd] in *; [|discriminate].
  rewrite (bind_after_ok _ _ _ _ _ E6).
  destruct (steady_steps steps O s6) as (Hs & _).
  destruct Hs as (Hok'' & Ha'').
  { intros j Hj. apply (tolerated_window O j); [apply Hq|]; lia. }
  split; [exact Hok'' | lia].
Qed.

Lemma load_state_errors_never_fail_the_run_witness :
  fst (TC007_Portal_Scanning_Trigger_manual_portal_scan_and_receive_real_time_updates.run_test (failing_at 5 PlaywrightError) fresh) = Ok tt.
Proof.
  refine (proj1 (load_state_errors_never_fail_the_run
                   TC007_Portal_Scanning_Trigger_manual_portal_scan_and_receive_real_time_updates.steps (failing_at 5 PlaywrightError) _)).
  intros j _. unfold tolerated, failing_at. cbn [awaited frames].
  destruct (Nat.eqb_spec j 5) as [->|Hj]; [right; split; [lia | reflexivity] | left; reflexivity].
Defined.

(** X14.  Any other failure ends the run at once with that exception: when
    operation [k] is the first to fail outside the tolerated load-state
    errors, [run_test] raises its exception and awaits nothing after it. *)
Theorem first_failure_ends_the_run (steps : list action) (O : Oracle)
    (k : nat) (e : exn) :
  (k < 6 + frames O + total_cost steps)%nat ->
  awaited O k = Some e ->
  ~ tolerated O k ->
  (forall j, (j < k)%nat -> awaited O j = None \/ tolerated O j) ->
  fst (run_steps steps O fresh) = Raise e /\
  awaits (snd (run_steps steps O fresh)) = S k.
Proof.
  intros Hk He Hnt Hq. destruct (run_steps_as_body steps O) as (-> & ->).
  rewrite body_in_three_parts.
  destruct (steady_first_five O fresh) as (H5 & H5f).
  destruct (Nat.lt_ge_cases k 5) as [Hk5|Hk5].
  { destruct (H5f k e) as (Hr & Ha); [cbn; lia | | exact He |].
    - intros j Hj. cbn in Hj. apply (tolerated_window O j); [apply Hq|]; lia.
    - destruct ((acquire Playwright ;; acquire Chromium ;; acquire Context ;; await ;; await)
                  O fresh) as [[[]|e'] s5] eqn:E5; cbn [fst snd] in *; [discriminate|].
      rewrite (bind_after_raise _ _ _ _ _ _ E5). split; assumption. }
  destruct H5 as (Hok & Ha).
  { intros j Hj. cbn in Hj. apply (tolerated_window O j); [apply Hq|]; lia. }
  destruct ((acquire Playwright ;; acquire Chromium ;; acquire Context ;; await ;; await)
              O fresh) as [[[]|e'] s5] eqn:E5; cbn [fst snd] in *; [|discriminate].
  cbn in Ha. rewrite (bind_after_ok _ _ _ _ _ E5).
  destruct (Nat.lt_ge_cases k (6 + frames O)) as [Hk6|Hk6].
  { pose proof (load_states_fail O s5 k e) as Hl; cbv zeta in Hl.
    destruct Hl as (Hr & Ha'); [lia | | exact He | |].
    - intros j Hj. apply (tolerated_window O j). apply Hq. lia.
    - intros ->. apply Hnt. unfold tolerated. split; [lia | exact He].
    - destruct ((try_except await is_PlaywrightError (ret tt) ;;
                 fs <- page_frames ;;
                 for_each fs (fun _ => try_except await is_PlaywrightError (ret tt)))
                  O s5) as [[[]|e'] s6] eqn:E6; cbn [fst snd] in *; [discriminate|].
      rewrite (bind_after_raise _ _ _ _ _ _ E6). split; assumption. }
  pose proof (load_states_run O s5) as Hl; cbv zeta in Hl.
  destruct Hl as (Hok' & Ha').
  { intros j Hj. apply (tolerated_window O j). apply Hq. lia. }
  destruct ((try_except await is_PlaywrightError (ret tt) ;;
             fs <- page_frames ;;
             for_each fs (fun _ => try_except await is_PlaywrightError (ret tt))) O s5)
    as [[[]|e'] s6] eqn:E6; cbn [fst snd] in *; [|discriminate].
  rewrite (bind_after_ok _ _ _ _ _ E6).
  destruct (steady_steps steps O s6) as (_ & Hsf).
  apply (Hsf k e); [lia | | exact He].
  intros j Hj. apply (tolerated_window O j); [apply Hq|]; lia.
Qed.

Lemma first_failure_ends_the_run_witness :
  fst (TC007_Portal_Scanning_Trigger_manual_portal_scan_and_receive_real_time_updates.run_test (failing_at 7 PlaywrightError) fresh) = Raise PlaywrightError /\
  awaits (snd (TC007_Portal_Scanning_Trigger_manual_portal_scan_and_receive_real_time_updates.run_test (failing_at 7 PlaywrightError) fresh)) = 8%nat.
Proof.
  apply (first_failure_ends_the_run TC007_Portal_Scanning_Trigger_manual_portal_scan_and_receive_real_time_updates.steps (failing_at 7 PlaywrightError)
           7 PlaywrightError).
  - vm_compute. lia.
  - reflexivity.
  - unfold tolerated. cbn. lia.
  - intros j Hj. left. unfold failing_at. cbn [awaited].
    destruct (Nat.eqb_spec j 7) as [->|_]; [lia | reflexivity].
Defined.
